(** * pdf-to-word-converter: the helper functions and the command line shell

    A shallow embedding of [src/utils/helpers.py] and [src/cli/interface.py].

    Python values are modelled as the code uses them: a [str] is a list of
    Unicode code points, an exception is a value of [raised], a function that
    prints and may raise is a computation of the monad [M], a [dict] with
    string keys is a [gmap string pyvalue].  What the code asks of the world
    (the file system, PyMuPDF, the converter class of [core/converter.py],
    [pathlib]) is collected in the record [Env]. *)

From Stdlib Require Import ZArith NArith List Bool Ascii String DecimalString Lia.
From stdpp Require Import gmap strings list sorting.
Import ListNotations.

Local Open Scope Z_scope.

(** ** Strings *)

(** A Python [str]: the sequence of its code points. *)
Abbreviation str := (list N).

(** The [str] of an ASCII literal of the source. *)
Definition py (s : string) : str := map N_of_ascii (list_ascii_of_string s).

Definition str_eqb (a b : str) : bool := bool_decide (a = b).

(** [s.replace(old, new)] for one-character [old] and [new]. *)
Definition str_replace (old new : N) (s : str) : str :=
  map (fun c => if N.eqb c old then new else c) s.

(** [c.isspace()]: the code points Python's [str.strip()] removes. *)
Definition isspace (c : N) : bool :=
  ((9 <=? c) && (c <=? 13) || (28 <=? c) && (c <=? 32)
   || (c =? 133) || (c =? 160) || (c =? 5760)
   || (8192 <=? c) && (c <=? 8202)
   || (c =? 8232) || (c =? 8233) || (c =? 8239) || (c =? 8287)
   || (c =? 12288))%N.

Fixpoint lstrip_by (f : N -> bool) (s : str) : str :=
  match s with
  | [] => []
  | c :: r => if f c then lstrip_by f r else s
  end.

Definition rstrip_by (f : N -> bool) (s : str) : str :=
  rev (lstrip_by f (rev s)).

(** [s.strip()] *)
Definition str_strip (s : str) : str := rstrip_by isspace (lstrip_by isspace s).

(** [s.startswith(t)] and [s.endswith(t)] *)
Fixpoint startswith (s t : str) {struct t} : bool :=
  match t, s with
  | [], _ => true
  | _ :: _, [] => false
  | d :: t', c :: s' => N.eqb c d && startswith s' t'
  end.

Definition endswith (s t : str) : bool := startswith (rev s) (rev t).

(** [len(s)] *)
Definition len {A} (s : list A) : Z := Z.of_nat (length s).

(** [s[:i]] and [s[i:]] for [0 <= i]. *)
Definition slice_to {A} (i : Z) (s : list A) : list A := firstn (Z.to_nat i) s.
Definition slice_from {A} (i : Z) (s : list A) : list A := skipn (Z.to_nat i) s.

(** ** Values, exceptions and the monad of printing computations *)

Inductive pyvalue :=
  | VNone
  | VBool (b : bool)
  | VInt (z : Z)
  | VStr (s : str)
  | VGlobal (name : string).

(** An instance of a class deriving from [Exception].  [is_OSError] tells
    the instances an [except OSError] clause catches. *)
Inductive exception :=
  | AttributeError (type attr : string)
  | NameError (name : string)
  | ValueError
  | TypeError
  | OverflowError
  | OSError
  | FileNotFoundError
  | RuntimeError
  | OtherError (cls : string).

Definition is_OSError (e : exception) : bool :=
  match e with
  | OSError | FileNotFoundError => true
  | _ => false
  end.

(** What a call raises: an instance of [Exception], or the [SystemExit] of
    [sys.exit(code)], which an [except Exception] clause lets through. *)
Inductive raised :=
  | Exc (e : exception)
  | SystemExit (code : Z).

Inductive result (A : Type) :=
  | Ok (a : A)
  | Raise (r : raised).
Arguments Ok {A} a.
Arguments Raise {A} r.

(** ** Name resolution in [helpers.py] *)

(** The names bound at module level in [helpers.py]. *)
Definition helpers_globals : list string :=
  ["os"; "sys"; "Path"; "List"; "Tuple"; "Optional"; "fitz"; "Fore"; "Style";
   "validate_file"; "get_file_size"; "get_pdf_info"; "create_output_directory";
   "get_pdf_files"; "generate_output_filename"; "print_file_info";
   "print_success_message"; "print_error_message"; "is_pdf_readable";
   "sanitize_filename"]%string.

(** The builtins the module uses; no builtin of Python is called
    [filenamev]. *)
Definition builtins : list string :=
  ["print"; "len"; "min"; "range"; "str"; "sorted"; "Exception"; "OSError";
   "True"; "False"; "None"]%string.

(** Reading a name inside a function of the module: the function's local
    variables, then the module's globals, then the builtins; otherwise
    [NameError]. *)
Definition load_name (locals : list (string * pyvalue)) (name : string)
  : result pyvalue :=
  match list_find (fun kv => bool_decide (kv.1 = name)) locals with
  | Some (_, (_, v)) => Ok v
  | None =>
      if bool_decide (name ∈ helpers_globals ++ builtins)
      then Ok (VGlobal name)
      else Raise (Exc (NameError name))
  end.

(** ** [sanitize_filename] *)

(** [invalid_chars]: less-than, greater-than, colon, double quote, slash,
    backslash, vertical bar, question mark, asterisk. *)
Definition invalid_chars : str := [60; 62; 58; 34; 47; 92; 124; 63; 42]%N.

Definition underscore : N := 95%N.

(** The value of the local variable [filename] when control reaches the
    [return] statement. *)
Definition sanitize_filename_local (filename : str) : str :=
  let filename :=
    fold_left (fun filename char => str_replace char underscore filename)
              invalid_chars filename in
  let filename := str_strip filename in
  let filename := if 200 <? len filename then slice_to 200 filename else filename in
  filename.

(** The function as written: its last statement is [return filenamev]. *)
Definition sanitize_filename (filename : str) : result pyvalue :=
  let filename := sanitize_filename_local filename in
  load_name [("filename"%string, VStr filename)] "filenamev".

(** ** Computations *)

(** The outcome of a call into a library (the operating system, PyMuPDF,
    pathlib, the converter): it returns, or it raises an instance of
    [Exception]. *)
Inductive outcome (A : Type) :=
  | Returns (a : A)
  | Throws (e : exception).
Arguments Returns {A} a.
Arguments Throws {A} e.

Definition call {A} (o : outcome A) : result A :=
  match o with
  | Returns a => Ok a
  | Throws e => Raise (Exc e)
  end.

Definition bindR {A B} (c : result A) (k : A -> result B) : result B :=
  match c with
  | Ok a => k a
  | Raise r => Raise r
  end.

Notation "'doR' x <- c ; k" := (bindR c (fun x => k))
  (at level 10, x name, c at level 100, k at level 200).

(** [try: body except cls as e: handler e], where [catches] tells the
    instances of [cls]. *)
Definition try_exceptR {A} (body : result A) (catches : exception -> bool)
    (handler : exception -> result A) : result A :=
  match body with
  | Raise (Exc e) => if catches e then handler e else body
  | _ => body
  end.

(** A path argument: a [str], or a [pathlib.Path] given by its string form. *)
Inductive pathlike :=
  | PStr (s : str)
  | PPath (s : str).

(** [os.fspath(p)] *)
Definition fspath (p : pathlike) : str :=
  match p with
  | PStr s => s
  | PPath s => s
  end.

(** The dict [config] the commands build from their options. *)
Record config := {
  quality : string;
  preserve_layout : bool;
  extract_images : bool;
  extract_tables : bool;
  verbose : bool
}.

(** What [converter.get_stats()] returns: pages, images, tables and the time
    in milliseconds. *)
Record stats := {
  stat_pages : Z;
  stat_images : Z;
  stat_tables : Z;
  stat_time_ms : Z
}.

(** A page of an opened PDF: what [page.get_text()] and [page.get_images()]
    do. *)
Record Page := {
  get_text : outcome str;
  get_images : outcome (list N)
}.

(** An opened PDF: its pages and what reading [doc.metadata] does. *)
Record Doc := {
  doc_pages : list Page;
  doc_metadata : outcome (gmap string pyvalue)
}.

(** The world the program runs in. *)
Record Env := {
  (** [s.lower()], Unicode's lower case mapping *)
  str_lower : str -> str;
  (** the paths that exist, and the size in bytes of those [os.stat] can read *)
  fs_exists : str -> bool;
  fs_size : str -> option Z;
  (** [fitz.open(path)] *)
  fitz_open : str -> outcome Doc;
  (** [pathlib]: [str(Path(s))], [p.name], [p.stem], [str(p.parent)],
      [str(p / name)], [str(p.absolute())], [list(p.glob("*.pdf"))] and
      [p.mkdir(parents=True, exist_ok=True)], all on string forms *)
  Path : str -> str;
  path_name : str -> str;
  path_stem : str -> str;
  path_parent : str -> str;
  path_div : str -> str -> str;
  path_absolute : str -> str;
  path_glob_pdf : str -> outcome (list str);
  path_mkdir : str -> outcome unit;
  (** [core.converter.PDFToWordConverter]: the state of a converter object,
      its constructor, [convert(input, output, progress_callback)] (with the
      calls it makes to the callback) and [get_stats()] *)
  converter : Type;
  converter_new : config -> outcome converter;
  converter_convert : converter -> str -> str -> outcome bool * converter;
  converter_get_stats : converter -> outcome stats
}.

(** A line group written to the console by one [print] (or [click.echo])
    site of the source. *)
Inductive message :=
  | MsgNotExists (file_path : pathlike)      (* helpers.py, line 25 *)
  | MsgBadExtension (extension : str)        (* helpers.py, line 29 *)
  | MsgPdfReadError (e : exception)          (* helpers.py, line 100 *)
  | MsgConvertHeader                         (* interface.py, lines 40-42 *)
  | MsgInvalidPdf                            (* interface.py, line 50 *)
  | MsgFileInfo (name size out : str) (quality : string)  (* lines 58-62 *)
  | MsgConversionSuccessful (out : str)      (* lines 95-96 *)
  | MsgStatistics (s : stats)                (* lines 101-105 *)
  | MsgConversionFailed                      (* line 107 *)
  | MsgError (e : exception)                 (* lines 111 and 203 *)
  | MsgTraceback (e : exception)             (* lines 114 and 206 *)
  | MsgBatchHeader                           (* lines 133-135 *)
  | MsgNoPdfFound (input_dir : str)          (* line 145 *)
  | MsgFound (n : Z) (output_dir : str)      (* lines 148-150 *)
  | MsgProcessing (i n : Z) (name : str)     (* line 174 *)
  | MsgFileSuccess                           (* line 186 *)
  | MsgFileFailed                            (* line 189 *)
  | MsgFileError (e : exception)             (* line 193 *)
  | MsgSummary (total successful failed : Z) (* lines 197-200 *).

(** A computation that prints: it takes the console written so far and gives
    its result with the console it leaves. *)
Definition M (A : Type) : Type := list message -> result A * list message.

Definition ret {A} (a : A) : M A := fun out => (Ok a, out).

Definition bindM {A B} (c : M A) (k : A -> M B) : M B :=
  fun out =>
    match c out with
    | (Ok a, out') => k a out'
    | (Raise r, out') => (Raise r, out')
    end.

Notation "'do' x <- c ; k" := (bindM c (fun x => k))
  (at level 10, x name, c at level 100, k at level 200).
Notation "c ;;; k" := (bindM c (fun _ => k))
  (at level 100, k at level 200, right associativity).

Definition print (m : message) : M unit := fun out => (Ok tt, out ++ [m]).

Definition lift {A} (r : result A) : M A := fun out => (r, out).

(** [sys.exit(code)] *)
Definition sys_exit {A} (code : Z) : M A := lift (Raise (SystemExit code)).

(** [try: body except Exception as e: handler e] *)
Definition try_except {A} (body : M A) (handler : exception -> M A) : M A :=
  fun out =>
    match body out with
    | (Raise (Exc e), out') => handler e out'
    | r => r
    end.

(** ** [validate_file] *)

(** [os.path.exists(p)]: [False] when [os.stat] fails, also with the
    [ValueError] it raises on a path with a NUL character. *)
Definition has_nul (s : str) : bool := existsb (N.eqb 0) s.

Definition os_path_exists (E : Env) (p : pathlike) : bool :=
  if has_nul (fspath p) then false else fs_exists E (fspath p).

(** [p.lower()]: a method of [str]; a [pathlib.Path] has no such attribute. *)
Definition lower_method (E : Env) (p : pathlike) : result str :=
  match p with
  | PStr s => Ok (str_lower E s)
  | PPath _ => Raise (Exc (AttributeError "PosixPath" "lower"))
  end.

Definition validate_file (E : Env) (file_path : pathlike) (extension : str)
  : M bool :=
  if negb (os_path_exists E file_path) then
    print (MsgNotExists file_path) ;;;
    ret false
  else
    do lowered <- lift (lower_method E file_path);
    if negb (endswith lowered (str_lower E extension)) then
      print (MsgBadExtension extension) ;;;
      ret false
    else
      ret true.

(** ** [get_file_size] *)

(** A path the file system encoding (UTF-8 with [surrogateescape]) cannot
    encode: it has a surrogate code point outside [U+DC80 .. U+DCFF]. *)
Definition unencodable (s : str) : bool :=
  existsb (fun c => (55296 <=? c) && (c <=? 57343)
                    && negb ((56448 <=? c) && (c <=? 56575)))%N s.

(** [os.path.getsize(p)], that is [os.stat(p).st_size].  [fs_size] is what
    [os.stat] reports, so a path with a size is one it could read.  When it
    cannot: [ValueError] on a path with a NUL character and on a path that
    cannot be encoded (there its subclass [UnicodeEncodeError]), an
    [OSError] otherwise. *)
Definition os_path_getsize (E : Env) (p : pathlike) : result Z :=
  if has_nul (fspath p) then Raise (Exc ValueError)
  else match fs_size E (fspath p) with
       | Some n => Ok n
       | None =>
           if unencodable (fspath p) then Raise (Exc ValueError)
           else Raise (Exc OSError)
       end.

(** The number the variable [size_bytes] holds: the [int] read from the file
    system, or a [float].  The floats that occur are dyadic rationals
    [m / 2^e] whose division by [1024.0] is exact, so they are held
    exactly. *)
Inductive number :=
  | PyInt (n : Z)
  | PyFloat (m e : Z).

(** [float(n)] for [0 <= n]: the nearest integer with 53 significant bits,
    ties to the even one; [None] where Python raises [OverflowError]. *)
Definition float_of_int (n : Z) : option Z :=
  let bits := Z.log2 n + 1 in
  if bits <=? 53 then Some n
  else
    let sh := bits - 53 in
    let q := Z.shiftr n sh in
    let r := n - Z.shiftl q sh in
    let half := Z.shiftl 1 (sh - 1) in
    let q' := if (half <? r) || ((r =? half) && Z.odd q) then q + 1 else q in
    let f := Z.shiftl q' sh in
    if f <? 2 ^ 1024 then Some f else None.

(** [x < 1024.0] *)
Definition lt_1024 (x : number) : bool :=
  match x with
  | PyInt n => n <? 1024
  | PyFloat m e => m <? 1024 * 2 ^ e
  end.

(** [x / 1024.0] *)
Definition div_1024 (x : number) : result number :=
  match x with
  | PyInt n =>
      match float_of_int n with
      | Some f => Ok (PyFloat f 10)
      | None => Raise (Exc OverflowError)
      end
  | PyFloat m e => Ok (PyFloat m (e + 10))
  end.

(** The decimal digits of a natural number. *)
Definition digits (n : Z) : str :=
  py (NilZero.string_of_uint (N.to_uint (Z.to_N n))).

(** [a / b] rounded to the nearest integer, ties to the even one, for
    [0 <= a] and [0 < b]. *)
Definition round_half_even (a b : Z) : Z :=
  let q := a / b in
  let r := a mod b in
  if (b <? 2 * r) || ((2 * r =? b) && Z.odd q) then q + 1 else q.

(** The format [.1f] of the rational [a / b], [0 <= a], [0 < b]: correctly
    rounded to one decimal, ties to even. *)
Definition format_1f_ratio (a b : Z) : str :=
  let t := round_half_even (10 * a) b in
  digits (t / 10) ++ py "." ++ digits (t mod 10).

(** [f"{x:.1f}"] for [0 <= x]; an [int] is converted to [float] first. *)
Definition format_1f (x : number) : result str :=
  match x with
  | PyInt n =>
      match float_of_int n with
      | Some f => Ok (format_1f_ratio f 1)
      | None => Raise (Exc OverflowError)
      end
  | PyFloat m e => Ok (format_1f_ratio m (2 ^ e))
  end.

(** The loop [for unit in units: ...] followed by the final [return]. *)
Fixpoint size_loop (units : list string) (size_bytes : number) : result str :=
  match units with
  | [] =>
      doR t <- format_1f size_bytes;
      Ok (t ++ py " TB")
  | unit :: units' =>
      if lt_1024 size_bytes then
        doR t <- format_1f size_bytes;
        Ok (t ++ py " " ++ py unit)
      else
        doR size_bytes <- div_1024 size_bytes;
        size_loop units' size_bytes
  end.

Definition get_file_size (E : Env) (file_path : pathlike) : result str :=
  try_exceptR
    (doR size_bytes <- os_path_getsize E file_path;
     size_loop ["B"; "KB"; "MB"; "GB"]%string (PyInt size_bytes))
    is_OSError
    (fun _ => Ok (py "Desconocido")).

(** ** [get_pdf_info] *)

(** ['Sin título'] *)
Definition sin_titulo : str := py "Sin t" ++ [237%N] ++ py "tulo".

(** [d.get(key, default)] *)
Definition dict_get (d : gmap string pyvalue) (key : string) (default : pyvalue)
  : pyvalue :=
  match d !! key with
  | Some v => v
  | None => default
  end.

(** The first loop over the first pages: is there a page with text. *)
Fixpoint scan_text (pages : list Page) : result bool :=
  match pages with
  | [] => Ok false
  | page :: pages' =>
      doR text <- call (get_text page);
      match str_strip text with
      | _ :: _ => Ok true
      | [] => scan_text pages'
      end
  end.

(** The second loop: is there a page with an image. *)
Fixpoint scan_images (pages : list Page) : result bool :=
  match pages with
  | [] => Ok false
  | page :: pages' =>
      doR image_list <- call (get_images page);
      match image_list with
      | _ :: _ => Ok true
      | [] => scan_images pages'
      end
  end.

(** [doc[page_num] for page_num in range(min(3, len(doc)))] *)
Definition first_pages (doc : Doc) : list Page :=
  slice_to (Z.min 3 (len (doc_pages doc))) (doc_pages doc).

(** The body of the [try] block; [doc.close()] changes nothing that is
    modelled. *)
Definition get_pdf_info_try (E : Env) (pdf_path : str)
  : result (gmap string pyvalue) :=
  doR doc <- call (fitz_open E pdf_path);
  let pages := VInt (len (doc_pages doc)) in
  doR size <- get_file_size E (PStr pdf_path);
  doR metadata <- call (doc_metadata doc);
  let title := dict_get metadata "title" (VStr sin_titulo) in
  doR metadata <- call (doc_metadata doc);
  let author := dict_get metadata "author" (VStr (py "Desconocido")) in
  let info : gmap string pyvalue :=
    <["pages"%string := pages]>
    (<["size"%string := VStr size]>
    (<["title"%string := title]>
    (<["author"%string := author]>
    (<["has_text"%string := VBool false]>
    (<["has_images"%string := VBool false]> ∅))))) in
  doR found <- scan_text (first_pages doc);
  let info := if found then <["has_text"%string := VBool true]> info else info in
  doR found <- scan_images (first_pages doc);
  let info := if found then <["has_images"%string := VBool true]> info else info in
  Ok info.

(** The dict the [except] clause returns, given the size it computed. *)
Definition error_info (size : str) : gmap string pyvalue :=
  <["pages"%string := VInt 0]>
  (<["size"%string := VStr size]>
  (<["title"%string := VStr (py "Error al leer")]>
  (<["author"%string := VStr (py "Desconocido")]>
  (<["has_text"%string := VBool false]>
  (<["has_images"%string := VBool false]> ∅))))).

Definition get_pdf_info (E : Env) (pdf_path : str) : M (gmap string pyvalue) :=
  try_except
    (lift (get_pdf_info_try E pdf_path))
    (fun e =>
       print (MsgPdfReadError e) ;;;
       do size <- lift (get_file_size E (PStr pdf_path));
       ret (error_info size)).

(** ** [generate_output_filename] *)

(** The functions of [os.path] the helper calls, as [posixpath] defines
    them. *)
Module posixpath.

Definition sep : N := 47%N.
Definition extsep : N := 46%N.

(** [s.rfind(c)] for a one-character [c]: the index of its last
    occurrence, or [-1]. *)
Fixpoint rfind_from (c : N) (s : str) (i acc : Z) : Z :=
  match s with
  | [] => acc
  | x :: s' => rfind_from c s' (i + 1) (if N.eqb x c then i else acc)
  end.

Definition rfind (c : N) (s : str) : Z := rfind_from c s 0 (-1).

Definition is_sep (c : N) : bool := N.eqb c sep.

(** [head == sep * len(head)] *)
Definition all_sep (head : str) : bool := forallb is_sep head.

Definition nonempty {A} (s : list A) : bool :=
  match s with
  | [] => false
  | _ :: _ => true
  end.

Definition dirname (p : str) : str :=
  let i := rfind sep p + 1 in
  let head := slice_to i p in
  if nonempty head && negb (all_sep head) then rstrip_by is_sep head
  else head.

Definition basename (p : str) : str :=
  let i := rfind sep p + 1 in
  slice_from i p.

(** [genericpath._splitext(p, sep, None, extsep)]: the extension starts at
    the last dot, when that dot comes after the last separator and after a
    character of the file name that is not a dot. *)
Definition splitext (p : str) : str * str :=
  let sepIndex := rfind sep p in
  let dotIndex := rfind extsep p in
  if (sepIndex <? dotIndex)
     && existsb (fun c => negb (N.eqb c extsep))
                (slice_from (sepIndex + 1) (slice_to dotIndex p))
  then (slice_to dotIndex p, slice_from dotIndex p)
  else (p, []).

(** [join(a, b)] *)
Definition join (a b : str) : str :=
  if startswith b [sep] then b
  else if negb (nonempty a) || endswith a [sep] then a ++ b
  else a ++ [sep] ++ b.

(** The three shapes of a directory name: empty, only separators, or
    ending in a character that is not a separator. *)
Inductive dir_shape : str -> Prop :=
  | shape_empty : dir_shape []
  | shape_root (d : str) : all_sep (d ++ [sep]) = true -> dir_shape (d ++ [sep])
  | shape_dir (d : str) (x : N) : is_sep x = false -> dir_shape (d ++ [x]).

End posixpath.

(** [output_path] is [None] or a [str]; it is taken when it is true, that
    is, a [str] that is not empty. *)
Definition generate_output_filename (input_path : str) (output_path : option str)
  : str :=
  match output_path with
  | Some (c :: o) => c :: o
  | _ =>
      let input_dir := posixpath.dirname input_path in
      let input_name := fst (posixpath.splitext (posixpath.basename input_path)) in
      posixpath.join input_dir (input_name ++ py ".docx")
  end.

(** ** The commands of [interface.py] *)

Section commands.

Variable E : Env.

(** The handler both commands end with:
    [except Exception as e: print(...); if verbose: traceback; sys.exit(1)] *)
Definition command_handler (verbose : bool) (e : exception) : M unit :=
  print (MsgError e) ;;;
  (if verbose then print (MsgTraceback e) else ret tt) ;;;
  sys_exit 1.

(** The body of the [try] block of [convert].  The progress bar, which only
    draws on the terminal, is left out; the calls [converter.convert] makes
    to [progress_callback] are part of what [converter_convert] does. *)
Definition convert_try (input_file output_file : str) (cfg : config) : M unit :=
  let input_path := Path E input_file in
  let output_path := Path E output_file in
  do valid <- validate_file E (PPath input_path) (py ".pdf");
  (if negb valid then print MsgInvalidPdf ;;; sys_exit 1 else ret tt) ;;;
  do _ <- lift (call (path_mkdir E (path_parent E output_path)));
  do file_size <- lift (get_file_size E (PPath input_path));
  print (MsgFileInfo (path_name E input_path) file_size
                     (path_name E output_path) (quality cfg)) ;;;
  do converter <- lift (call (converter_new E cfg));
  let '(r, converter) := converter_convert E converter input_path output_path in
  do success <- lift (call r);
  if success then
    print (MsgConversionSuccessful (path_absolute E output_path)) ;;;
    if verbose cfg then
      do stats <- lift (call (converter_get_stats E converter));
      print (MsgStatistics stats)
    else ret tt
  else
    print MsgConversionFailed ;;;
    sys_exit 1.

Definition convert (input_file output_file : str) (cfg : config) : M unit :=
  print MsgConvertHeader ;;;
  try_except (convert_try input_file output_file cfg)
             (command_handler (verbose cfg)).

(** The counters of the batch loop and the converter object it uses. *)
Record batch_state := {
  successful : Z;
  failed : Z;
  the_converter : converter E
}.

(** One iteration of [for i, pdf_file in enumerate(pdf_files, 1)]. *)
Definition batch_step (output_path : str) (total : Z) (i : Z) (pdf_file : str)
    (st : batch_state) : M batch_state :=
  let output_file := path_div E output_path (path_stem E pdf_file ++ py ".docx") in
  print (MsgProcessing i total (path_name E pdf_file)) ;;;
  let '(r, converter) :=
    converter_convert E (the_converter st) pdf_file output_file in
  try_except
    (do success <- lift (call r);
     if success then
       print MsgFileSuccess ;;;
       ret {| successful := successful st + 1; failed := failed st;
              the_converter := converter |}
     else
       print MsgFileFailed ;;;
       ret {| successful := successful st; failed := failed st + 1;
              the_converter := converter |})
    (fun e =>
       print (MsgFileError e) ;;;
       ret {| successful := successful st; failed := failed st + 1;
              the_converter := converter |}).

Fixpoint batch_loop (output_path : str) (total : Z) (i : Z)
    (pdf_files : list str) (st : batch_state) : M batch_state :=
  match pdf_files with
  | [] => ret st
  | pdf_file :: rest =>
      do st <- batch_step output_path total i pdf_file st;
      batch_loop output_path total (i + 1) rest st
  end.

(** The body of the [try] block of [batch]. *)
Definition batch_try (input_dir output_dir : str) (cfg : config) : M unit :=
  let input_path := Path E input_dir in
  let output_path := Path E output_dir in
  do pdf_files <- lift (call (path_glob_pdf E input_path));
  match pdf_files with
  | [] => print (MsgNoPdfFound input_dir)
  | _ :: _ =>
      print (MsgFound (len pdf_files) (path_absolute E output_path)) ;;;
      do _ <- lift (call (path_mkdir E output_path));
      do converter <- lift (call (converter_new E cfg));
      do st <- batch_loop output_path (len pdf_files) 1 pdf_files
                 {| successful := 0; failed := 0; the_converter := converter |};
      print (MsgSummary (len pdf_files) (successful st) (failed st))
  end.

Definition batch (input_dir output_dir : str) (cfg : config) : M unit :=
  print MsgBatchHeader ;;;
  try_except (batch_try input_dir output_dir cfg)
             (command_handler (verbose cfg)).

End commands.

(** The exit status of the process that runs a command: [0] when the command
    returns, the code of a [SystemExit], [1] for an exception that reaches the
    top level. *)
Definition exit_code {A} (r : result A) : Z :=
  match r with
  | Ok _ => 0
  | Raise (SystemExit code) => code
  | Raise (Exc _) => 1
  end.

(** Whether a computation ended with an exception, an instance of
    [Exception]. *)
Definition raised_exception {A} (r : result A) : bool :=
  match r with
  | Raise (Exc _) => true
  | _ => false
  end.

(** Whether the validation of [convert] failed: [validate_file] returned
    [False]. *)
Definition validation_failed (E : Env) (input_file : str) (out : list message)
  : bool :=
  match fst (validate_file E (PPath (Path E input_file)) (py ".pdf") out) with
  | Ok false => true
  | _ => false
  end.

(** ** What the specification says, for comparison with the code *)

(** [sanitize_filename]: every invalid character becomes an underscore, the
    result is trimmed, then cut to at most 200 characters. *)
Definition is_invalid (c : N) : bool := existsb (N.eqb c) invalid_chars.

Definition sanitized (filename : str) : str :=
  firstn 200
    (str_strip (map (fun c => if is_invalid c then underscore else c) filename)).

(** [validate_file]: the path ends with the extension, case aside. *)
Definition ends_with_ignoring_case (E : Env) (file_path extension : str) : Prop :=
  exists prefix, str_lower E file_path = prefix ++ str_lower E extension.

(** [get_file_size]: the number of divisions by 1024 is the first [k] below 4
    for which [n / 1024^k < 1024], and 4 when there is none; the value
    [n / 1024^k] is shown with one decimal, then a space and the unit. *)
Definition unit_names : list string := ["B"; "KB"; "MB"; "GB"; "TB"]%string.

Definition unit_index (n : Z) : nat :=
  if n <? 1024 then 0%nat
  else if n <? 1024 ^ 2 then 1%nat
  else if n <? 1024 ^ 3 then 2%nat
  else if n <? 1024 ^ 4 then 3%nat
  else 4%nat.

Definition human_size (n : Z) : str :=
  let k := unit_index n in
  format_1f_ratio n (1024 ^ Z.of_nat k) ++ py " " ++ py (nth k unit_names ""%string).

(** The value of the [float] nearest to the size [n]: [n] itself when
    [n < 2^53]. *)
Definition nearest_double (n : Z) : Z :=
  match float_of_int n with
  | Some f => f
  | None => n
  end.

(** Batch mode: the conversions in the listed order, each started on the
    converter as the one before left it, and the console block of each. *)
Fixpoint conversions (E : Env) (output_path : str) (pdf_files : list str)
    (c : converter E) : list (str * outcome bool) :=
  match pdf_files with
  | [] => []
  | pdf_file :: rest =>
      let output_file := path_div E output_path (path_stem E pdf_file ++ py ".docx") in
      let '(r, c') := converter_convert E c pdf_file output_file in
      (pdf_file, r) :: conversions E output_path rest c'
  end.

(** The converter once the listed files are converted. *)
Fixpoint converter_after (E : Env) (output_path : str) (pdf_files : list str)
    (c : converter E) : converter E :=
  match pdf_files with
  | [] => c
  | pdf_file :: rest =>
      let output_file := path_div E output_path (path_stem E pdf_file ++ py ".docx") in
      converter_after E output_path rest
        (snd (converter_convert E c pdf_file output_file))
  end.

Definition result_message (r : outcome bool) : message :=
  match r with
  | Returns true => MsgFileSuccess
  | Returns false => MsgFileFailed
  | Throws e => MsgFileError e
  end.

Fixpoint blocks (E : Env) (total i : Z) (cs : list (str * outcome bool))
  : list message :=
  match cs with
  | [] => []
  | (pdf_file, r) :: cs' =>
      MsgProcessing i total (path_name E pdf_file) :: result_message r
        :: blocks E total (i + 1) cs'
  end.

(** Whether a conversion counts as a success. *)
Definition is_success (r : outcome bool) : bool :=
  match r with
  | Returns true => true
  | _ => false
  end.

(** The number of conversions that succeeded, and of those that did not. *)
Definition successes (cs : list (str * outcome bool)) : Z :=
  len (List.filter (fun fr => is_success (snd fr)) cs).

Definition failures (cs : list (str * outcome bool)) : Z :=
  len (List.filter (fun fr => negb (is_success (snd fr))) cs).

(** ** A small world to run the code in *)

(** Lower case on the ASCII letters. *)
Definition ascii_lower (s : str) : str :=
  map (fun c => if (65 <=? c) && (c <=? 90) then c + 32 else c)%N s.

(** A PDF of two pages, the second with text and one image. *)
Definition demo_doc : Doc :=
  {| doc_pages := [ {| get_text := Returns (py " "); get_images := Returns [] |};
                    {| get_text := Returns (py "Hello"); get_images := Returns [7%N] |} ];
     doc_metadata := Returns (<["title"%string := VStr (py "Report")]> ∅) |}.

(** A converter that counts its calls; it returns [True] on [a.pdf], [False]
    on [b.pdf] and raises on any other file. *)
Definition demo_convert (calls : nat) (input output : str) : outcome bool * nat :=
  (if str_eqb input (py "in/a.pdf") then Returns true
   else if str_eqb input (py "in/b.pdf") then Returns false
   else Throws RuntimeError,
   S calls).

(** A world with the files [in/a.pdf] (2621440 bytes), [in/b.pdf] and
    [in/c.pdf] and the directory [in]. *)
Definition demo_env : Env :=
  {| str_lower := ascii_lower;
     fs_exists := fun p => bool_decide (p ∈ [py "in"; py "in/a.pdf"; py "in/b.pdf"; py "in/c.pdf"; py "in/A.PDF"; py "in/notes.txt"]);
     fs_size := fun p => if str_eqb p (py "in/a.pdf") then Some 2621440 else None;
     fitz_open := fun p => if str_eqb p (py "in/a.pdf") then Returns demo_doc
                           else Throws RuntimeError;
     Path := fun s => s;
     path_name := posixpath.basename;
     path_stem := fun p => fst (posixpath.splitext (posixpath.basename p));
     path_parent := posixpath.dirname;
     path_div := posixpath.join;
     path_absolute := fun p => py "/work/" ++ p;
     path_glob_pdf := fun d => if str_eqb d (py "in")
                               then Returns [py "in/a.pdf"; py "in/b.pdf"; py "in/c.pdf"]
                               else Returns [];
     path_mkdir := fun _ => Returns tt;
     converter := nat;
     converter_new := fun _ => Returns 0%nat;
     converter_convert := demo_convert;
     converter_get_stats := fun calls =>
       Returns {| stat_pages := Z.of_nat calls; stat_images := 0;
                  stat_tables := 0; stat_time_ms := 0 |} |}.

Definition demo_config : config :=
  {| quality := "high"; preserve_layout := true; extract_images := true;
     extract_tables := true; verbose := false |}.

(** ** The other functions of [helpers.py] *)

(** The order of Python on [str]: lexicographic on the code points. *)
Fixpoint str_leb (a b : str) : bool :=
  match a, b with
  | [], _ => true
  | _ :: _, [] => false
  | x :: a', y :: b' =>
      if (x <? y)%N then true
      else if (y <? x)%N then false
      else str_leb a' b'
  end.

Definition str_le (a b : str) : Prop := str_leb a b = true.

#[global] Instance str_le_dec : RelDecision str_le.
Proof. intros a b. unfold str_le. apply _. Defined.

(** [sorted(l)] for a list of [str]: a stable merge sort. *)
Definition sorted (l : list str) : list str := merge_sort str_le l.

(** What the other helpers print, besides the messages of the functions they
    call. *)
Inductive helper_message :=
  | Printed (m : message)                       (* by a function called *)
  | MsgDirectoryCreated (output_dir : str)      (* helpers.py, line 125 *)
  | MsgDirectoryError (e : exception)           (* line 128 *)
  | MsgDirNotExists (directory : str)           (* line 145 *)
  | MsgNoPdfIn (directory : str)                (* line 154 *)
  | MsgListError (e : exception)                (* line 159 *)
  | MsgInfoHeader (pdf_path output_path : str)  (* lines 196-198 *)
  | MsgInfoPages (pages : pyvalue)              (* line 201 *)
  | MsgInfoSize (size : pyvalue)                (* line 202 *)
  | MsgInfoTitle (title : pyvalue)              (* line 205 *)
  | MsgInfoContains (capabilities : list str)   (* line 215 *)
  | MsgInfoNoText                               (* line 217 *).

(** The computations of these helpers: as [M], on their own console. *)
Definition Helper (A : Type) : Type :=
  list helper_message -> result A * list helper_message.

Definition retH {A} (a : A) : Helper A := fun out => (Ok a, out).

Definition bindH {A B} (c : Helper A) (k : A -> Helper B) : Helper B :=
  fun out =>
    match c out with
    | (Ok a, out') => k a out'
    | (Raise r, out') => (Raise r, out')
    end.

Notation "'doH' x <- c ; k" := (bindH c (fun x => k))
  (at level 10, x name, c at level 100, k at level 200).
Notation "c ;;+ k" := (bindH c (fun _ => k))
  (at level 100, k at level 200, right associativity).

Definition printH (m : helper_message) : Helper unit :=
  fun out => (Ok tt, out ++ [m]).

Definition liftH {A} (r : result A) : Helper A := fun out => (r, out).

(** A call of a function of [M]: what it prints comes after what is on the
    console. *)
Definition callM {A} (c : M A) : Helper A :=
  fun out => let '(r, printed) := c [] in (r, out ++ map Printed printed).

(** [try: body except Exception as e: handler e] *)
Definition try_exceptH {A} (body : Helper A) (handler : exception -> Helper A)
  : Helper A :=
  fun out =>
    match body out with
    | (Raise (Exc e), out') => handler e out'
    | r => r
    end.

(** [d[key]]: [KeyError] when the key is missing. *)
Definition dict_getitem (d : gmap string pyvalue) (key : string) : result pyvalue :=
  match d !! key with
  | Some v => Ok v
  | None => Raise (Exc (OtherError "KeyError"))
  end.

(** The truth value of a Python value. *)
Definition truthy (v : pyvalue) : bool :=
  match v with
  | VNone => false
  | VBool b => b
  | VInt z => negb (z =? 0)
  | VStr s => posixpath.nonempty s
  | VGlobal _ => true
  end.

(** [v != s] for a [str] [s] *)
Definition ne_str (v : pyvalue) (s : str) : bool :=
  match v with
  | VStr t => negb (str_eqb t s)
  | _ => true
  end.

(** ["imágenes"] *)
Definition imagenes : str := py "im" ++ [225%N] ++ py "genes".

Section helpers.

Variable E : Env.

(** [os.makedirs(path)] and [os.listdir(path)] *)
Variable os_makedirs : str -> outcome unit.
Variable os_listdir : str -> outcome (list str).

Definition create_output_directory (output_path : str) : Helper bool :=
  try_exceptH
    (let output_dir := posixpath.dirname output_path in
     if posixpath.nonempty output_dir
        && negb (os_path_exists E (PStr output_dir))
     then
       doH _ <- liftH (call (os_makedirs output_dir));
       printH (MsgDirectoryCreated output_dir) ;;+
       retH true
     else retH true)
    (fun e =>
       printH (MsgDirectoryError e) ;;+
       retH false).

(** The loop [for file in os.listdir(directory)] on the list [pdf_files]. *)
Definition collect_pdf (directory : str) (names : list str) : list str :=
  fold_left
    (fun pdf_files file =>
       if endswith (str_lower E file) (py ".pdf")
       then pdf_files ++ [posixpath.join directory file]
       else pdf_files)
    names [].

Definition get_pdf_files (directory : str) : Helper (list str) :=
  let pdf_files : list str := [] in
  if negb (os_path_exists E (PStr directory)) then
    printH (MsgDirNotExists directory) ;;+
    retH pdf_files
  else
    try_exceptH
      (doH names <- liftH (call (os_listdir directory));
       let pdf_files := collect_pdf directory names in
       (if posixpath.nonempty pdf_files then retH tt
        else printH (MsgNoPdfIn directory)) ;;+
       retH (sorted pdf_files))
      (fun e =>
         printH (MsgListError e) ;;+
         retH []).

Definition print_file_info (pdf_path output_path : str) (verbose : bool)
  : Helper unit :=
  if negb verbose then retH tt
  else
    printH (MsgInfoHeader pdf_path output_path) ;;+
    doH info <- callM (get_pdf_info E pdf_path);
    doH pages <- liftH (dict_getitem info "pages");
    printH (MsgInfoPages pages) ;;+
    doH size <- liftH (dict_getitem info "size");
    printH (MsgInfoSize size) ;;+
    doH title <- liftH (dict_getitem info "title");
    (if ne_str title sin_titulo then printH (MsgInfoTitle title) else retH tt) ;;+
    let capabilities : list str := [] in
    doH has_text <- liftH (dict_getitem info "has_text");
    let capabilities :=
      if truthy has_text then capabilities ++ [py "texto"] else capabilities in
    doH has_images <- liftH (dict_getitem info "has_images");
    let capabilities :=
      if truthy has_images then capabilities ++ [imagenes] else capabilities in
    if posixpath.nonempty capabilities then printH (MsgInfoContains capabilities)
    else printH MsgInfoNoText.

(** [except Exception: return False] catches every exception. *)
Definition is_pdf_readable (pdf_path : str) : result bool :=
  try_exceptR
    (doR doc <- call (fitz_open E pdf_path);
     if 0 <? len (doc_pages doc) then
       match doc_pages doc with
       | page :: _ =>
           doR text <- call (get_text page);
           Ok true
       | [] => Raise (Exc (OtherError "IndexError"))
       end
     else Ok false)
    (fun _ => true)
    (fun _ => Ok false).

End helpers.

(** A page and a PDF that can be read without error. *)
Definition plain_page (content : str * list N) : Page :=
  {| get_text := Returns (fst content); get_images := Returns (snd content) |}.

Definition plain_doc (pages : list (str * list N)) (metadata : gmap string pyvalue)
  : Doc :=
  {| doc_pages := map plain_page pages; doc_metadata := Returns metadata |}.

(** Whether such a page has text that is not blank, and whether it has an
    image. *)
Definition has_content (content : str * list N) : bool :=
  posixpath.nonempty (str_strip (fst content)).

Definition has_image (content : str * list N) : bool :=
  posixpath.nonempty (snd content).

(** The dict [get_pdf_info] builds. *)
Definition make_info (pages size title author has_text has_images : pyvalue)
  : gmap string pyvalue :=
  <["pages"%string := pages]>
  (<["size"%string := size]>
  (<["title"%string := title]>
  (<["author"%string := author]>
  (<["has_text"%string := has_text]>
  (<["has_images"%string := has_images]> ∅))))).

Definition info_keys : gset string :=
  {["pages"; "size"; "title"; "author"; "has_text"; "has_images"]}%string.

(** A listing for [demo_env]'s directory [in]. *)
Definition demo_listdir (directory : str) : outcome (list str) :=
  if str_eqb directory (py "in")
  then Returns [py "notes.txt"; py "c.pdf"; py "A.PDF"; py "a.pdf"; py "b.pdf"]
  else Throws OSError.

(** The world [E] with another PyMuPDF, and with another [mkdir]. *)
Definition with_fitz_open (E : Env) (f : str -> outcome Doc) : Env :=
  {| str_lower := str_lower E; fs_exists := fs_exists E; fs_size := fs_size E;
     fitz_open := f;
     Path := Path E; path_name := path_name E; path_stem := path_stem E;
     path_parent := path_parent E; path_div := path_div E;
     path_absolute := path_absolute E; path_glob_pdf := path_glob_pdf E;
     path_mkdir := path_mkdir E;
     converter := converter E; converter_new := converter_new E;
     converter_convert := converter_convert E;
     converter_get_stats := converter_get_stats E |}.

Definition with_path_mkdir (E : Env) (f : str -> outcome unit) : Env :=
  {| str_lower := str_lower E; fs_exists := fs_exists E; fs_size := fs_size E;
     fitz_open := fitz_open E;
     Path := Path E; path_name := path_name E; path_stem := path_stem E;
     path_parent := path_parent E; path_div := path_div E;
     path_absolute := path_absolute E; path_glob_pdf := path_glob_pdf E;
     path_mkdir := f;
     converter := converter E; converter_new := converter_new E;
     converter_convert := converter_convert E;
     converter_get_stats := converter_get_stats E |}.

(** ** The specification's side of [get_file_size], without the code's
    rounding functions *)

(** The gap between the floats around [n]: a float has 53 significant
    bits. *)
Definition ulp (n : Z) : Z := 2 ^ Z.max 0 (Z.log2 n - 52).

(** [v] is the float nearest to the integer [n], ties to the even one. *)
Definition nearest_float (n v : Z) : Prop :=
  (ulp n | v)
  /\ 2 * Z.abs (v - n) <= ulp n
  /\ (2 * Z.abs (v - n) = ulp n -> Z.even (v / ulp n) = true).

(** [t / 10] is [a / b] to one decimal place: the nearest tenth, ties to the
    even one. *)
Definition nearest_tenths (a b t : Z) : Prop :=
  2 * Z.abs (10 * a - t * b) <= b
  /\ (2 * Z.abs (10 * a - t * b) = b -> Z.even t = true).

(** [s] renders the value [v]: [v] divided by 1024 as often as [unit_index]
    says, with one decimal place, a space and the unit. *)
Definition renders (v : Z) (s : str) : Prop :=
  exists t,
    nearest_tenths v (1024 ^ Z.of_nat (unit_index v)) t
    /\ s = digits (t / 10) ++ py "." ++ digits (t mod 10) ++ py " "
            ++ py (nth (unit_index v) unit_names ""%string).

(** The world [E] with other file sizes; a size of 8 PiB and one byte, and a
    world where every file has it. *)
Definition with_fs_size (E : Env) (f : str -> option Z) : Env :=
  {| str_lower := str_lower E; fs_exists := fs_exists E; fs_size := f;
     fitz_open := fitz_open E;
     Path := Path E; path_name := path_name E; path_stem := path_stem E;
     path_parent := path_parent E; path_div := path_div E;
     path_absolute := path_absolute E; path_glob_pdf := path_glob_pdf E;
     path_mkdir := path_mkdir E;
     converter := converter E; converter_new := converter_new E;
     converter_convert := converter_convert E;
     converter_get_stats := converter_get_stats E |}.

Definition huge_size : Z := 9007474132647937.

Definition huge_env : Env := with_fs_size demo_env (fun _ => Some huge_size).

(** ** The specification's side of [generate_output_filename], without
    [os.path] *)

Definition slash : N := 47%N.
Definition dot : N := 46%N.

(** [s] has a character other than [c]. *)
Definition has_other_than (c : N) (s : str) : Prop :=
  exists x, In x s /\ x <> c.

(** The stem of a file name: the name without its extension, which starts
    at the last dot, provided a character other than a dot comes before that
    dot; the whole name when it has no such extension. *)
Definition stem_of (name stem : str) : Prop :=
  (exists ext,
     name = stem ++ dot :: ext /\ ~ In dot ext /\ has_other_than dot stem)
  \/ (stem = name
      /\ forall s ext,
           name = s ++ dot :: ext -> ~ In dot ext -> ~ has_other_than dot s).

(** The directory of a path whose part up to the file name is [head]:
    [head] itself when it is made of slashes only (or empty), and otherwise
    [head] without the slashes it ends with. *)
Definition directory_of (head dir : str) : Prop :=
  (Forall (eq slash) head /\ dir = head)
  \/ (exists slashes d x,
        dir = d ++ [x] /\ x <> slash
        /\ head = dir ++ slashes /\ slashes <> [] /\ Forall (eq slash) slashes).

(** [path] is the file [file] in the directory [dir]. *)
Definition placed_in (dir file path : str) : Prop :=
  (Forall (eq slash) dir /\ path = dir ++ file)
  \/ (~ Forall (eq slash) dir /\ path = dir ++ slash :: file).

(** ** The command line *)

(** What [os.stat] tells [click] about a path. *)
Inductive file_kind :=
  | RegularFile
  | Directory
  | OtherFile.

Definition is_regular (kind : file_kind) : bool :=
  match kind with
  | RegularFile => true
  | _ => false
  end.

Definition is_directory (kind : file_kind) : bool :=
  match kind with
  | Directory => true
  | _ => false
  end.

(** The body of the [try] block of [convert] and the command, over what the
    validation of the input does: [convert_try] is [convert_try_with] at
    [validate_file(input_path, '.pdf')]. *)
Definition convert_try_with (E : Env) (valid : M bool)
    (input_file output_file : str) (cfg : config) : M unit :=
  let input_path := Path E input_file in
  let output_path := Path E output_file in
  do valid <- valid;
  (if negb valid then print MsgInvalidPdf ;;; sys_exit 1 else ret tt) ;;;
  do _ <- lift (call (path_mkdir E (path_parent E output_path)));
  do file_size <- lift (get_file_size E (PPath input_path));
  print (MsgFileInfo (path_name E input_path) file_size
                     (path_name E output_path) (quality cfg)) ;;;
  do converter <- lift (call (converter_new E cfg));
  let '(r, converter) := converter_convert E converter input_path output_path in
  do success <- lift (call r);
  if success then
    print (MsgConversionSuccessful (path_absolute E output_path)) ;;;
    if verbose cfg then
      do stats <- lift (call (converter_get_stats E converter));
      print (MsgStatistics stats)
    else ret tt
  else
    print MsgConversionFailed ;;;
    sys_exit 1.

Definition convert_with (E : Env) (valid : M bool)
    (input_file output_file : str) (cfg : config) : M unit :=
  print MsgConvertHeader ;;;
  try_except (convert_try_with E valid input_file output_file cfg)
             (command_handler (verbose cfg)).

(** Every step of [convert] succeeds: the validation returns [True], the
    output directory can be made, the size is formatted, the converter is
    built, the conversion returns [True] and, when verbose, the statistics
    are read. *)
Definition convert_succeeds (E : Env) (valid : M bool)
    (input_file output_file : str) (cfg : config) (out : list message) : bool :=
  let input_path := Path E input_file in
  let output_path := Path E output_file in
  match fst (valid out), path_mkdir E (path_parent E output_path),
        get_file_size E (PPath input_path), converter_new E cfg with
  | Ok true, Returns _, Ok _, Returns converter =>
      match converter_convert E converter input_path output_path with
      | (Returns true, converter) =>
          negb (verbose cfg)
          || match converter_get_stats E converter with
             | Returns _ => true
             | Throws _ => false
             end
      | _ => false
      end
  | _, _, _, _ => false
  end.

Section click.

Variable E : Env.

(** [os.stat(path)]: the kind of the file, [None] when it raises [OSError];
    and [os.access(path, os.R_OK)].  An argument of a command line has no
    NUL character. *)
Variable os_stat_kind : str -> option file_kind.
Variable os_access_read : str -> bool.

(** Whether [click.Path(exists=..., file_okay=..., dir_okay=...)] accepts a
    value; its other options keep their defaults, so the path must be
    readable when it exists. *)
Definition click_Path (must_exist file_okay dir_okay : bool) (value : str) : bool :=
  match os_stat_kind value with
  | None => negb must_exist
  | Some kind =>
      negb (negb file_okay && is_regular kind)
      && negb (negb dir_okay && is_directory kind)
      && os_access_read value
  end.

(** Whether [click.Choice(choices)] accepts a value. *)
Definition click_Choice (choices : list string) (value : string) : bool :=
  bool_decide (value ∈ choices).

(** Whether [click] accepts the arguments of [convert], and of [batch]. *)
Definition convert_accepted (input_file output_file : str) (cfg : config) : bool :=
  click_Path true true false input_file
  && click_Path false true false output_file
  && click_Choice ["low"; "medium"; "high"]%string (quality cfg).

Definition batch_accepted (input_dir output_dir : str) (cfg : config) : bool :=
  click_Path true false true input_dir
  && click_Path false false true output_dir
  && click_Choice ["low"; "medium"; "high"]%string (quality cfg).

(** The exit code of the process for an invocation of a command with its two
    arguments: when [click] rejects an argument it prints a usage error and
    exits with 2, and the command does not run. *)
Definition convert_invocation (input_file output_file : str) (cfg : config)
    (out : list message) : Z :=
  if convert_accepted input_file output_file cfg
  then exit_code (fst (convert E input_file output_file cfg out))
  else 2.

Definition batch_invocation (input_dir output_dir : str) (cfg : config)
    (out : list message) : Z :=
  if batch_accepted input_dir output_dir cfg
  then exit_code (fst (batch E input_dir output_dir cfg out))
  else 2.

End click.

(** The kinds of the files of [demo_env]. *)
Definition demo_stat_kind (path : str) : option file_kind :=
  if str_eqb path (py "in") then Some Directory
  else if fs_exists demo_env path then Some RegularFile
  else None.

(** * Theorems *)

(** ** [sanitize_filename] *)

(** The nine replacements, one after the other, act on a character as the
    single replacement of every invalid character: an underscore is not an
    invalid character, so no later replacement touches an earlier one's
    result. *)
Lemma replace_all_pointwise (c : N) :
  fold_left (fun x char => if N.eqb x char then underscore else x) invalid_chars c
  = if is_invalid c then underscore else c.
Proof.
  unfold is_invalid, invalid_chars, underscore; cbn [fold_left existsb].
  repeat match goal with
         | |- context [N.eqb c ?k] =>
             destruct (N.eqb_spec c k) as [->|?]; [reflexivity|]
         end.
  reflexivity.
Qed.

Lemma fold_replace_map (chars : str) (s : str) :
  fold_left (fun filename char => str_replace char underscore filename) chars s
  = map (fun c => fold_left (fun x char => if N.eqb x char then underscore else x) chars c) s.
Proof.
  revert s; induction chars as [|k chars IH]; intros s; cbn [fold_left].
  - symmetry; apply map_id.
  - rewrite IH. unfold str_replace. rewrite map_map. reflexivity.
Qed.

Lemma truncate_firstn {A} (n : nat) (s : list A) :
  (if Z.of_nat n <? len s then slice_to (Z.of_nat n) s else s) = firstn n s.
Proof.
  unfold len, slice_to. rewrite Nat2Z.id.
  destruct (Z.ltb_spec (Z.of_nat n) (Z.of_nat (length s))); [reflexivity|].
  symmetry; apply firstn_all2; lia.
Qed.

(** Up to its [return] statement the function computes what the
    specification describes. *)
Lemma sanitize_filename_local_spec (filename : str) :
  sanitize_filename_local filename = sanitized filename.
Proof.
  unfold sanitize_filename_local, sanitized.
  change 200 with (Z.of_nat 200). rewrite truncate_firstn.
  rewrite fold_replace_map. do 2 f_equal.
  apply map_ext; intros c. apply replace_all_pointwise.
Qed.

Lemma sanitized_length (filename : str) : (length (sanitized filename) <= 200)%nat.
Proof. unfold sanitized. rewrite length_firstn. lia. Qed.

(** The [return] statement reads the name [filenamev], which is bound
    nowhere: every call raises [NameError]. *)
Lemma sanitize_filename_raises (filename : str) :
  sanitize_filename filename = Raise (Exc (NameError "filenamev")).
Proof. reflexivity. Qed.

(** C1, at the input ["  a<b>?.pdf "]: the specification gives
    ["a_b__.pdf"], which is the value the local variable holds, and the call
    raises [NameError] instead of returning it. *)
Theorem sanitize_filename_failing_input :
  sanitized (py "  a<b>?.pdf ") = py "a_b__.pdf"
  /\ sanitize_filename_local (py "  a<b>?.pdf ") = py "a_b__.pdf"
  /\ sanitize_filename (py "  a<b>?.pdf ") = Raise (Exc (NameError "filenamev")).
Proof. repeat split; vm_compute; reflexivity. Qed.

(** ** [validate_file] *)

Lemma startswith_prefix (s t : str) :
  startswith s t = true <-> exists rest, s = t ++ rest.
Proof.
  revert s; induction t as [|d t IH]; intros s; cbn [startswith].
  - split; [intros _; exists s; reflexivity | reflexivity].
  - destruct s as [|c s].
    + split; [discriminate | intros [rest H]; discriminate].
    + rewrite andb_true_iff, N.eqb_eq, IH. split.
      * intros [-> [rest ->]]. exists rest; reflexivity.
      * intros [rest H]. injection H as -> ->. split; [reflexivity | eauto].
Qed.

Lemma endswith_suffix (s t : str) :
  endswith s t = true <-> exists prefix, s = prefix ++ t.
Proof.
  unfold endswith. rewrite startswith_prefix. split.
  - intros [rest H]. exists (rev rest).
    rewrite <- (rev_involutive s), H, rev_app_distr, rev_involutive. reflexivity.
  - intros [prefix ->]. exists (rev prefix). apply rev_app_distr.
Qed.

(** C2: on a [str] path [validate_file] returns a boolean, and it is [True]
    exactly when the path exists and ends with the extension, case aside;
    so it is [False] for a path that does not exist and for one with
    another extension. *)
Theorem validate_file_str (E : Env) (file_path extension : str) (out : list message) :
  exists b : bool,
    fst (validate_file E (PStr file_path) extension out) = Ok b
    /\ (b = true <->
        os_path_exists E (PStr file_path) = true
        /\ ends_with_ignoring_case E file_path extension).
Proof.
  unfold validate_file, ends_with_ignoring_case.
  destruct (os_path_exists E (PStr file_path)) eqn:Hex; cbn.
  - destruct (endswith (str_lower E file_path) (str_lower E extension)) eqn:Hend; cbn.
    + exists true. split; [reflexivity|]. split; [|reflexivity].
      intros _. split; [reflexivity|]. apply endswith_suffix, Hend.
    + exists false. split; [reflexivity|]. split; [discriminate|].
      intros [_ H]. apply endswith_suffix in H. congruence.
  - exists false. split; [reflexivity|]. split; [discriminate|].
    intros [H _]; discriminate.
Qed.

(** The messages: none when the file is valid, one otherwise. *)
Lemma validate_file_str_false (E : Env) (file_path extension : str) (out : list message) :
  (os_path_exists E (PStr file_path) = false ->
   validate_file E (PStr file_path) extension out
   = (Ok false, out ++ [MsgNotExists (PStr file_path)]))
  /\ (os_path_exists E (PStr file_path) = true ->
      endswith (str_lower E file_path) (str_lower E extension) = false ->
      validate_file E (PStr file_path) extension out
      = (Ok false, out ++ [MsgBadExtension extension])).
Proof.
  unfold validate_file. split.
  - intros ->. reflexivity.
  - intros -> H. cbn. rewrite H. reflexivity.
Qed.

(** ** [validate_file] on a [pathlib.Path], and [convert] *)

Lemma validate_file_Path (E : Env) (p extension : str) (out : list message) :
  validate_file E (PPath p) extension out
  = if os_path_exists E (PPath p)
    then (Raise (Exc (AttributeError "PosixPath" "lower")), out)
    else (Ok false, out ++ [MsgNotExists (PPath p)]).
Proof.
  unfold validate_file. destruct (os_path_exists E (PPath p)); reflexivity.
Qed.

(** What [convert] does, whatever the world and the arguments. *)
Lemma convert_run (E : Env) (input_file output_file : str) (cfg : config)
    (out : list message) :
  convert E input_file output_file cfg out
  = (Raise (SystemExit 1),
     out ++ [MsgConvertHeader]
         ++ (if os_path_exists E (PPath (Path E input_file))
             then MsgError (AttributeError "PosixPath" "lower")
                    :: (if verbose cfg
                        then [MsgTraceback (AttributeError "PosixPath" "lower")]
                        else [])
             else [MsgNotExists (PPath (Path E input_file)); MsgInvalidPdf])).
Proof.
  unfold convert, convert_try, try_except, bindM, print at 1.
  rewrite validate_file_Path.
  destruct (os_path_exists E (PPath (Path E input_file))); cbn.
  - unfold command_handler, bindM, print, sys_exit, lift, ret.
    destruct (verbose cfg); cbn; rewrite <- ?app_assoc; reflexivity.
  - rewrite <- !app_assoc. reflexivity.
Qed.

(** C3: given a [pathlib.Path] of an existing file, [validate_file] raises
    [AttributeError] and prints nothing; and [convert], which passes such a
    [Path], never gets [True] from it: on an existing input file it prints
    the header and the error, never the success message, and exits with 1. *)
Theorem validate_file_Path_raises (E : Env) (p : str) :
  os_path_exists E (PPath p) = true ->
  (forall extension out,
     validate_file E (PPath p) extension out
     = (Raise (Exc (AttributeError "PosixPath" "lower")), out))
  /\ (forall input_file output_file cfg out,
        Path E input_file = p ->
        fst (validate_file E (PPath (Path E input_file)) (py ".pdf") (out ++ [MsgConvertHeader]))
          <> Ok true
        /\ fst (convert E input_file output_file cfg out) = Raise (SystemExit 1)
        /\ (forall o, ~ In (MsgConversionSuccessful o)
                         (skipn (length out) (snd (convert E input_file output_file cfg out))))).
Proof.
  intros Hex. split.
  - intros extension out. rewrite validate_file_Path, Hex. reflexivity.
  - intros input_file output_file cfg out <-. repeat split.
    + rewrite validate_file_Path, Hex. discriminate.
    + rewrite convert_run. reflexivity.
    + intros o. rewrite convert_run. cbn [snd].
      rewrite skipn_app, skipn_all, Nat.sub_diag, Hex. cbn.
      destruct (verbose cfg); cbn; intuition discriminate.
Qed.

Lemma validate_file_Path_raises_witness :
  os_path_exists demo_env (PPath (py "in/a.pdf")) = true
  /\ validate_file demo_env (PPath (py "in/a.pdf")) (py ".pdf") []
     = (Raise (Exc (AttributeError "PosixPath" "lower")), [])
  /\ fst (convert demo_env (py "in/a.pdf") (py "out/a.docx") demo_config [])
     = Raise (SystemExit 1).
Proof.
  assert (H : os_path_exists demo_env (PPath (py "in/a.pdf")) = true)
    by (vm_compute; reflexivity).
  split; [exact H|].
  destruct (validate_file_Path_raises demo_env (py "in/a.pdf") H) as [Hv Hc].
  split; [apply Hv|].
  destruct (Hc (py "in/a.pdf") (py "out/a.docx") demo_config [] eq_refl) as (_ & Hx & _).
  exact Hx.
Defined.

(** ** [get_file_size] *)

Lemma float_of_int_exact (n : Z) :
  0 <= n < 2 ^ 53 -> float_of_int n = Some n.
Proof.
  intros [H0 H1]. unfold float_of_int.
  assert (Hb : Z.log2 n + 1 <= 53).
  { destruct (Z.eq_dec n 0) as [->|Hn]; [cbn; lia|].
    assert (Z.log2 n < 53) by (apply Z.log2_lt_pow2; lia). lia. }
  destruct (Z.leb_spec (Z.log2 n + 1) 53); [reflexivity | lia].
Qed.

Lemma float_of_int_rounded (n : Z) :
  2 ^ 53 <= n < 2 ^ 63 ->
  exists f, float_of_int n = Some f /\ 2 ^ 53 <= f <= 2 ^ 63.
Proof.
  intros [H0 H1]. unfold float_of_int.
  assert (Hpos : 0 < n) by lia.
  pose proof (Z.log2_spec n Hpos) as [Hlo Hhi].
  assert (Hb1 : 53 <= Z.log2 n) by (apply Z.log2_le_pow2; lia).
  assert (Hb2 : Z.log2 n < 63) by (apply Z.log2_lt_pow2; lia).
  destruct (Z.leb_spec (Z.log2 n + 1) 53); [lia|].
  set (sh := Z.log2 n + 1 - 53) in *.
  rewrite Z.shiftr_div_pow2 by lia.
  set (q := n / 2 ^ sh).
  set (q' := if _ : bool then q + 1 else q).
  rewrite !Z.shiftl_mul_pow2 by lia.
  assert (Hsh : Z.succ (Z.log2 n) = 53 + sh) by (unfold sh; lia).
  rewrite Hsh in Hhi.
  assert (Hsh' : Z.log2 n = 52 + sh) by lia.
  rewrite Hsh' in Hlo.
  rewrite Z.pow_add_r in Hlo, Hhi by lia.
  assert (Hp : 0 < 2 ^ sh) by (apply Z.pow_pos_nonneg; lia).
  assert (Hq : 2 ^ 52 <= q < 2 ^ 53).
  { unfold q. split.
    - apply Z.div_le_lower_bound; lia.
    - apply Z.div_lt_upper_bound; lia. }
  assert (Hq' : 2 ^ 52 <= q' <= 2 ^ 53) by (unfold q'; destruct (_ : bool); lia).
  assert (Hpsh : 2 <= 2 ^ sh <= 2 ^ 10).
  { split.
    - change 2 with (2 ^ 1) at 1. apply Z.pow_le_mono_r; lia.
    - apply Z.pow_le_mono_r; lia. }
  assert (Hf : 2 ^ 53 <= q' * 2 ^ sh <= 2 ^ 63).
  { change (2 ^ 63) with (2 ^ 53 * 2 ^ 10). change (2 ^ 53) with (2 ^ 52 * 2) at 1.
    split; apply Z.mul_le_mono_nonneg; lia. }
  assert (Hbig : 2 ^ 63 < 2 ^ 1024) by (apply Z.pow_lt_mono_r; lia).
  destruct (Z.ltb_spec (q' * 2 ^ sh) (2 ^ 1024)); [|lia].
  eexists; split; [reflexivity | exact Hf].
Qed.

Lemma nearest_double_exact (n : Z) : 0 <= n < 2 ^ 53 -> nearest_double n = n.
Proof. intros H. unfold nearest_double. rewrite float_of_int_exact by exact H. reflexivity. Qed.

Lemma size_loop_small (n : Z) :
  0 <= n < 2 ^ 53 ->
  size_loop ["B"; "KB"; "MB"; "GB"]%string (PyInt n) = Ok (human_size n).
Proof.
  intros Hn. unfold human_size, unit_index.
  cbn [size_loop lt_1024].
  destruct (Z.ltb_spec n 1024) as [H1|H1].
  { cbn [format_1f]. rewrite float_of_int_exact by exact Hn. reflexivity. }
  cbn [div_1024]. rewrite float_of_int_exact by exact Hn. cbn [bindR lt_1024].
  change (1024 * 2 ^ 10) with (1024 ^ 2).
  destruct (Z.ltb_spec n (1024 ^ 2)) as [H2|H2]; [reflexivity|].
  cbn [div_1024 bindR lt_1024].
  change (1024 * 2 ^ (10 + 10)) with (1024 ^ 3).
  destruct (Z.ltb_spec n (1024 ^ 3)) as [H3|H3]; [reflexivity|].
  cbn [div_1024 bindR lt_1024].
  change (1024 * 2 ^ (10 + 10 + 10)) with (1024 ^ 4).
  destruct (Z.ltb_spec n (1024 ^ 4)) as [H4|H4]; reflexivity.
Qed.

Lemma size_loop_large (n f : Z) :
  float_of_int n = Some f -> 2 ^ 53 <= n -> 2 ^ 53 <= f ->
  size_loop ["B"; "KB"; "MB"; "GB"]%string (PyInt n) = Ok (human_size f).
Proof.
  intros Hf Hn Hlo. unfold human_size, unit_index.
  assert (H50 : 1024 ^ 4 < 2 ^ 53) by reflexivity.
  assert (M1 : 1024 < 1024 ^ 4) by reflexivity.
  assert (M2 : 1024 ^ 2 < 1024 ^ 4) by reflexivity.
  assert (M3 : 1024 ^ 3 < 1024 ^ 4) by reflexivity.
  cbn [size_loop lt_1024].
  destruct (Z.ltb_spec n 1024); [lia|].
  cbn [div_1024]. rewrite Hf. cbn [bindR lt_1024].
  change (1024 * 2 ^ 10) with (1024 ^ 2).
  destruct (Z.ltb_spec f (1024 ^ 2)); [lia|].
  cbn [div_1024 bindR lt_1024].
  change (1024 * 2 ^ (10 + 10)) with (1024 ^ 3).
  destruct (Z.ltb_spec f (1024 ^ 3)); [lia|].
  cbn [div_1024 bindR lt_1024].
  change (1024 * 2 ^ (10 + 10 + 10)) with (1024 ^ 4).
  destruct (Z.ltb_spec f (1024 ^ 4)); [lia|].
  destruct (Z.ltb_spec f 1024); [lia|].
  reflexivity.
Qed.

Lemma size_loop_spec (n : Z) :
  0 <= n < 2 ^ 63 ->
  size_loop ["B"; "KB"; "MB"; "GB"]%string (PyInt n)
  = Ok (human_size (nearest_double n)).
Proof.
  intros [H0 H1]. destruct (Z.lt_ge_cases n (2 ^ 53)) as [Hs|Hl].
  - rewrite nearest_double_exact by lia. apply size_loop_small; lia.
  - destruct (float_of_int_rounded n) as (f & Hf & Hlo & _); [lia|].
    unfold nearest_double. rewrite Hf. apply size_loop_large; assumption.
Qed.

Lemma get_file_size_bounded (E : Env) (file_path : pathlike) (n : Z) :
  has_nul (fspath file_path) = false ->
  fs_size E (fspath file_path) = Some n ->
  0 <= n < 2 ^ 63 ->
  exists size, get_file_size E file_path = Ok size.
Proof.
  intros Hnul Hsize Hn. unfold get_file_size, os_path_getsize.
  rewrite Hnul, Hsize. cbn [bindR]. rewrite size_loop_spec by exact Hn.
  eexists; reflexivity.
Qed.

Lemma float_of_int_nearest_small (n : Z) :
  0 <= n < 2 ^ 53 -> nearest_float n n.
Proof.
  intros [H0 H1]. unfold nearest_float, ulp.
  assert (Hlog : Z.log2 n <= 52).
  { destruct (Z.eq_dec n 0) as [->|Hn]; [cbn; lia|].
    assert (Z.log2 n < 53) by (apply Z.log2_lt_pow2; lia). lia. }
  rewrite Z.max_l by lia. change (2 ^ 0) with 1.
  rewrite Z.sub_diag. cbn [Z.abs Z.mul]. repeat split.
  - apply Z.divide_1_l.
  - lia.
  - discriminate.
Qed.

Lemma float_of_int_nearest_large (n : Z) :
  2 ^ 53 <= n < 2 ^ 63 ->
  exists v, float_of_int n = Some v /\ nearest_float n v.
Proof.
  intros [H0 H1]. unfold float_of_int, nearest_float, ulp.
  assert (Hpos : 0 < n) by lia.
  assert (Hb1 : 53 <= Z.log2 n) by (apply Z.log2_le_pow2; lia).
  assert (Hb2 : Z.log2 n < 63) by (apply Z.log2_lt_pow2; lia).
  destruct (Z.leb_spec (Z.log2 n + 1) 53); [lia|].
  replace (Z.max 0 (Z.log2 n - 52)) with (Z.log2 n + 1 - 53) by lia.
  set (sh := Z.log2 n + 1 - 53) in *.
  assert (Hsh : 1 <= sh <= 10) by (unfold sh; lia).
  rewrite Z.shiftr_div_pow2 by lia.
  rewrite !Z.shiftl_mul_pow2 by lia.
  assert (Hp : 0 < 2 ^ sh) by (apply Z.pow_pos_nonneg; lia).
  assert (Hhalf : 2 ^ sh = 2 * 2 ^ (sh - 1)).
  { replace sh with (1 + (sh - 1)) at 1 by lia.
    rewrite Z.pow_add_r by lia. reflexivity. }
  rewrite Z.mul_1_l.
  set (q := n / 2 ^ sh).
  set (half := 2 ^ (sh - 1)) in *.
  assert (Hdiv : n = 2 ^ sh * q + n mod 2 ^ sh) by (apply Z.div_mod; lia).
  assert (Hmod : 0 <= n mod 2 ^ sh < 2 ^ sh) by (apply Z.mod_pos_bound; lia).
  set (r := n - q * 2 ^ sh).
  assert (Hr : 0 <= r < 2 ^ sh) by (unfold r; lia).
  assert (Hn : n = q * 2 ^ sh + r) by (unfold r; lia).
  assert (Hq : 0 <= q) by (unfold q; apply Z.div_pos; lia).
  assert (Hqhi : q < 2 ^ 53).
  { unfold q. apply Z.div_lt_upper_bound; [lia|].
    pose proof (Z.log2_spec n Hpos) as [_ Hhi].
    replace (Z.succ (Z.log2 n)) with (sh + 53) in Hhi by (unfold sh; lia).
    rewrite Z.pow_add_r in Hhi by lia. lia. }
  assert (Hbig : 2 ^ 63 < 2 ^ 1024) by (apply Z.pow_lt_mono_r; lia).
  assert (Hpsh : 2 ^ sh <= 2 ^ 10) by (apply Z.pow_le_mono_r; lia).
  assert (Hfit : forall q', 0 <= q' <= 2 ^ 53 -> q' * 2 ^ sh < 2 ^ 1024).
  { intros q' Hq'. eapply Z.le_lt_trans; [|exact Hbig].
    change (2 ^ 63) with (2 ^ 53 * 2 ^ 10).
    apply Z.mul_le_mono_nonneg; lia. }
  destruct ((half <? r) || ((r =? half) && Z.odd q)) eqn:Hup.
  - assert (Hlt : (q + 1) * 2 ^ sh < 2 ^ 1024) by (apply Hfit; lia).
    destruct (Z.ltb_spec ((q + 1) * 2 ^ sh) (2 ^ 1024)); [|lia].
    eexists; split; [reflexivity|].
    rewrite Z.div_mul by lia.
    apply orb_true_iff in Hup as [Hup | Hup].
    + apply Z.ltb_lt in Hup. repeat split.
      * exists (q + 1). reflexivity.
      * lia.
      * lia.
    + apply andb_true_iff in Hup as [Hup Hodd]. apply Z.eqb_eq in Hup.
      repeat split.
      * exists (q + 1). reflexivity.
      * lia.
      * intros _. rewrite Z.add_1_r, Z.even_succ. exact Hodd.
  - assert (Hlt : q * 2 ^ sh < 2 ^ 1024) by (apply Hfit; lia).
    destruct (Z.ltb_spec (q * 2 ^ sh) (2 ^ 1024)); [|lia].
    eexists; split; [reflexivity|].
    rewrite Z.div_mul by lia.
    apply orb_false_iff in Hup as [Hup1 Hup2]. apply Z.ltb_ge in Hup1.
    repeat split.
    + exists q. reflexivity.
    + lia.
    + intros Htie. assert (Hrh : r = half) by lia.
      apply Z.eqb_eq in Hrh. rewrite Hrh in Hup2. cbn in Hup2.
      rewrite <- Z.negb_odd, Hup2. reflexivity.
Qed.

(** The rounding of the model gives the nearest tenth, ties to even. *)
Lemma round_half_even_nearest (a b : Z) :
  0 <= a -> 0 < b -> nearest_tenths a b (round_half_even (10 * a) b).
Proof.
  intros Ha Hb. unfold nearest_tenths, round_half_even.
  set (q := (10 * a) / b). set (r := (10 * a) mod b).
  assert (Hdiv : 10 * a = b * q + r) by (apply Z.div_mod; lia).
  assert (Hmod : 0 <= r < b) by (apply Z.mod_pos_bound; lia).
  destruct ((b <? 2 * r) || ((2 * r =? b) && Z.odd q)) eqn:Hup.
  - apply orb_true_iff in Hup as [Hup | Hup].
    + apply Z.ltb_lt in Hup. split; [|]; lia.
    + apply andb_true_iff in Hup as [Hup Hodd]. apply Z.eqb_eq in Hup.
      split; [lia|]. intros _. rewrite Z.add_1_r, Z.even_succ. exact Hodd.
  - apply orb_false_iff in Hup as [Hup1 Hup2]. apply Z.ltb_ge in Hup1.
    split; [lia|]. intros Htie. assert (Hrb : 2 * r = b) by lia.
    apply Z.eqb_eq in Hrb. rewrite Hrb in Hup2. cbn in Hup2.
    rewrite <- Z.negb_odd, Hup2. reflexivity.
Qed.

Lemma human_size_renders (v : Z) : 0 <= v -> renders v (human_size v).
Proof.
  intros Hv. unfold renders, human_size, format_1f_ratio.
  exists (round_half_even (10 * v) (1024 ^ Z.of_nat (unit_index v))). split.
  - apply round_half_even_nearest; [exact Hv|]. apply Z.pow_pos_nonneg; lia.
  - rewrite <- !app_assoc. reflexivity.
Qed.

Lemma nearest_float_nonneg (n v : Z) : 0 <= n -> nearest_float n v -> 0 <= v.
Proof.
  intros Hn ([m ->] & Hnear & _).
  assert (Hu : 0 < ulp n) by (unfold ulp; apply Z.pow_pos_nonneg; lia).
  destruct (Z.le_gt_cases 0 m) as [Hm|Hm]; [apply Z.mul_nonneg_nonneg; lia|].
  exfalso. assert (m * ulp n <= - ulp n) by nia. lia.
Qed.

(** C4, as amended: for a file of [n] bytes, [0 <= n < 2^63], [get_file_size]
    renders a value [v] as the specification says: divided by 1024 until it
    is below 1024, through B, KB, MB, GB and at most down to TB, to one
    decimal place, then a space and the unit.  The value [v] is [n] itself
    when [n < 2^53]; above, it is the float nearest to [n]. *)
Theorem get_file_size_renders_float (E : Env) (file_path : pathlike) (n : Z) :
  has_nul (fspath file_path) = false ->
  fs_size E (fspath file_path) = Some n ->
  0 <= n < 2 ^ 63 ->
  exists v,
    nearest_float n v
    /\ (n < 2 ^ 53 -> v = n)
    /\ get_file_size E file_path = Ok (human_size v)
    /\ renders v (human_size v).
Proof.
  intros Hnul Hsize [H0 H1].
  assert (Hrun : forall v, size_loop ["B"; "KB"; "MB"; "GB"]%string (PyInt n)
                           = Ok (human_size v) ->
                           get_file_size E file_path = Ok (human_size v)).
  { intros v Hv. unfold get_file_size, os_path_getsize. rewrite Hnul, Hsize.
    cbn [bindR]. rewrite Hv. reflexivity. }
  destruct (Z.lt_ge_cases n (2 ^ 53)) as [Hs|Hl].
  - exists n. split; [apply float_of_int_nearest_small; lia|].
    split; [reflexivity|].
    split; [apply Hrun, size_loop_small; lia | apply human_size_renders; lia].
  - destruct (float_of_int_nearest_large n) as (v & Hf & Hnear); [lia|].
    destruct (float_of_int_rounded n) as (v' & Hf' & Hlo & _); [lia|].
    assert (v' = v) by congruence. subst v'.
    exists v. split; [exact Hnear|]. split; [lia|].
    split; [apply Hrun, size_loop_large; assumption|].
    apply human_size_renders. lia.
Qed.

Lemma get_file_size_renders_float_witness :
  get_file_size demo_env (PStr (py "in/a.pdf")) = Ok (py "2.5 MB").
Proof.
  destruct (get_file_size_renders_float demo_env (PStr (py "in/a.pdf")) 2621440)
    as (v & _ & Hv & Hrun & _).
  - reflexivity.
  - reflexivity.
  - lia.
  - rewrite Hrun, Hv by lia. vm_compute. reflexivity.
Defined.

(** C4, as stated, fails for a file of [2^53 + 274877906945] bytes: the code
    prints 8192.2 TB, and the size to one decimal place is 8192.3 TB. *)
Lemma get_file_size_not_exact :
  fs_size huge_env (py "huge.bin") = Some huge_size
  /\ get_file_size huge_env (PStr (py "huge.bin")) = Ok (py "8192.2 TB")
  /\ human_size huge_size = py "8192.3 TB"
  /\ ~ renders huge_size (py "8192.2 TB").
Proof.
  split; [reflexivity|]. split; [vm_compute; reflexivity|].
  split; [vm_compute; reflexivity|].
  intros (t & [Hnear _] & Hs).
  change (unit_index huge_size) with 4%nat in Hnear, Hs.
  change (1024 ^ Z.of_nat 4) with 1099511627776 in Hnear.
  unfold huge_size in Hnear.
  assert (Ht : t = 81923) by lia. subst t.
  vm_compute in Hs. discriminate.
Qed.

(** The units change at the powers of 1024, and a tie goes to the even
    digit. *)
Example human_size_values :
  map human_size [0; 1023; 1024; 1280; 1536; 1048575; 1048576; 2 ^ 40; 2 ^ 50]
  = map py ["0.0 B"; "1023.0 B"; "1.0 KB"; "1.2 KB"; "1.5 KB"; "1024.0 KB";
            "1.0 MB"; "1.0 TB"; "1024.0 TB"]%string.
Proof. vm_compute. reflexivity. Qed.

(** Above [2^53] bytes the [float] of the size need not be the size. *)
Example nearest_double_values :
  map nearest_double [2 ^ 53; 2 ^ 53 + 1; 2 ^ 53 + 3; 2 ^ 63 - 1]
  = [2 ^ 53; 2 ^ 53; 2 ^ 53 + 4; 2 ^ 63].
Proof. vm_compute. reflexivity. Qed.

(** When the size cannot be read, the answer is ["Desconocido"]. *)
Lemma get_file_size_unknown (E : Env) (file_path : pathlike) :
  has_nul (fspath file_path) = false ->
  unencodable (fspath file_path) = false ->
  fs_size E (fspath file_path) = None ->
  get_file_size E file_path = Ok (py "Desconocido").
Proof.
  intros Hnul Henc Hsize. unfold get_file_size, os_path_getsize.
  rewrite Hnul, Hsize, Henc. reflexivity.
Qed.

(** A path that cannot be read and cannot be encoded makes [os.stat] raise
    [UnicodeEncodeError], a [ValueError], which leaves the function too. *)
Lemma get_file_size_unencodable (E : Env) (file_path : pathlike) :
  unencodable (fspath file_path) = true ->
  fs_size E (fspath file_path) = None ->
  get_file_size E file_path = Raise (Exc ValueError).
Proof.
  intros Henc Hsize. unfold get_file_size, os_path_getsize.
  rewrite Hsize, Henc. destruct (has_nul _); reflexivity.
Qed.

(** A path with a NUL character makes [os.stat] raise [ValueError], which
    the [except OSError] clause does not catch. *)
Lemma get_file_size_nul (E : Env) (file_path : pathlike) :
  has_nul (fspath file_path) = true ->
  get_file_size E file_path = Raise (Exc ValueError).
Proof.
  intros Hnul. unfold get_file_size, os_path_getsize. rewrite Hnul. reflexivity.
Qed.

(** ** [generate_output_filename] *)

Module posixpath_facts.
Import posixpath.

Lemma rfind_from_cases (c : N) (s : str) (i acc : Z) :
  (~ In c s /\ rfind_from c s i acc = acc)
  \/ (exists a b, s = a ++ c :: b /\ ~ In c b /\ rfind_from c s i acc = i + len a).
Proof.
  revert i acc; induction s as [|x s IH]; intros i acc; cbn [rfind_from].
  - left. split; [intros [] | reflexivity].
  - destruct (IH (i + 1) (if N.eqb x c then i else acc))
      as [[Hnot Heq] | (a & b & -> & Hnot & Heq)].
    + destruct (N.eqb_spec x c) as [->|Hne].
      * right. exists [], s. repeat split; [assumption|]. rewrite Heq. unfold len. cbn. lia.
      * left. split; [|assumption]. intros [H|H]; [congruence | contradiction].
    + right. exists (x :: a), b. repeat split; [assumption|].
      rewrite Heq. unfold len. cbn [length]. lia.
Qed.

(** [s.rfind(c)] is [-1] when [c] does not occur, and otherwise the
    length of what comes before its last occurrence. *)
Lemma rfind_cases (c : N) (s : str) :
  (~ In c s /\ rfind c s = -1)
  \/ (exists a b, s = a ++ c :: b /\ ~ In c b /\ rfind c s = len a).
Proof.
  unfold rfind. destruct (rfind_from_cases c s 0 (-1)) as [H | (a & b & H1 & H2 & H3)].
  - left; exact H.
  - right. exists a, b. repeat split; [assumption..|]. rewrite H3. lia.
Qed.

Lemma rfind_absent (c : N) (s : str) : ~ In c s -> rfind c s = -1.
Proof.
  intros Hnot. destruct (rfind_cases c s) as [[_ H] | (a & b & -> & _ & _)];
    [exact H|].
  exfalso. apply Hnot, in_or_app. right; left; reflexivity.
Qed.

Lemma rfind_last (c : N) (a b : str) : ~ In c b -> rfind c (a ++ c :: b) = len a.
Proof.
  intros Hnot. destruct (rfind_cases c (a ++ c :: b))
    as [[H _] | (a' & b' & Heq & Hnot' & ->)].
  - exfalso. apply H, in_or_app. right; left; reflexivity.
  - f_equal. clear - Heq Hnot Hnot'.
    revert a' Heq; induction a as [|x a IH]; intros a' Heq.
    + destruct a' as [|y a']; [reflexivity|]. cbn in Heq. injection Heq as -> ->.
      exfalso. apply Hnot, in_or_app. right; left; reflexivity.
    + destruct a' as [|y a'].
      * cbn in Heq. injection Heq as -> <-.
        exfalso. apply Hnot', in_or_app. right; left; reflexivity.
      * cbn in Heq. injection Heq as -> Heq. f_equal. exact (IH _ Heq).
Qed.

Lemma slice_to_app {A} (a b : list A) : slice_to (len a) (a ++ b) = a.
Proof.
  unfold slice_to, len. rewrite Nat2Z.id, firstn_app, Nat.sub_diag, firstn_all.
  cbn. apply app_nil_r.
Qed.

Lemma slice_from_app {A} (a b : list A) : slice_from (len a) (a ++ b) = b.
Proof.
  unfold slice_from, len. rewrite Nat2Z.id, skipn_app, Nat.sub_diag, skipn_all.
  reflexivity.
Qed.

Lemma len_snoc {A} (a : list A) (x : A) : len a + 1 = len (a ++ [x]).
Proof. unfold len. rewrite length_app. cbn. lia. Qed.

(** The two halves of a path without a separator. *)
Lemma split_no_sep (p : str) :
  ~ In sep p -> dirname p = [] /\ basename p = p.
Proof.
  intros H. unfold dirname, basename. rewrite (rfind_absent _ _ H). split; reflexivity.
Qed.

(** The head that [dirname] starts from and the [basename] of a path with
    a separator. *)
Lemma split_at_last_sep (a b : str) :
  ~ In sep b ->
  slice_to (rfind sep (a ++ sep :: b) + 1) (a ++ sep :: b) = a ++ [sep]
  /\ basename (a ++ sep :: b) = b.
Proof.
  intros H. unfold basename. rewrite (rfind_last _ _ _ H), (len_snoc a sep).
  change (a ++ sep :: b) with (a ++ [sep] ++ b). rewrite app_assoc.
  split; [apply slice_to_app | apply slice_from_app].
Qed.

Lemma lstrip_by_cases (f : N -> bool) (s : str) :
  (forallb f s = true /\ lstrip_by f s = [])
  \/ (exists x r, lstrip_by f s = x :: r /\ f x = false).
Proof.
  induction s as [|c s IH]; cbn.
  - left; split; reflexivity.
  - destruct (f c) eqn:Hc; cbn.
    + exact IH.
    + right. exists c, s. split; [reflexivity | exact Hc].
Qed.

Lemma forallb_rev_eq (f : N -> bool) (s : str) : forallb f (rev s) = forallb f s.
Proof.
  induction s as [|c s IH]; [reflexivity|].
  cbn. rewrite forallb_app, IH. cbn. rewrite andb_true_r. apply andb_comm.
Qed.

Lemma all_sep_snoc (s : str) :
  nonempty s = true -> all_sep s = true -> exists d, s = d ++ [sep].
Proof.
  intros Hne Hall. destruct (exists_last (l := s)) as (d & x & ->).
  { destruct s; [discriminate | discriminate]. }
  exists d. unfold all_sep in Hall. rewrite forallb_app in Hall. cbn in Hall.
  apply andb_true_iff in Hall as [_ Hx]. rewrite andb_true_r in Hx.
  apply N.eqb_eq in Hx. subst x. reflexivity.
Qed.

Lemma dirname_shape (p : str) : dir_shape (dirname p).
Proof.
  unfold dirname. set (head := slice_to _ p).
  destruct (nonempty head) eqn:Hne; cbn [andb].
  - destruct (all_sep head) eqn:Hall; cbn [negb].
    + destruct (all_sep_snoc head Hne Hall) as [d Hd]. rewrite Hd in *.
      apply shape_root, Hall.
    + unfold rstrip_by.
      destruct (lstrip_by_cases is_sep (rev head)) as [[H _] | (x & r & -> & Hx)].
      * rewrite forallb_rev_eq in H. unfold all_sep in Hall. congruence.
      * cbn [rev]. apply shape_dir, Hx.
  - destruct head; [constructor | discriminate].
Qed.

Lemma rstrip_by_snoc_keep (f : N -> bool) (d : str) (x : N) :
  f x = false -> rstrip_by f (d ++ [x]) = d ++ [x].
Proof.
  intros Hx. unfold rstrip_by. rewrite rev_app_distr. cbn. rewrite Hx.
  cbn. rewrite rev_involutive. reflexivity.
Qed.

Lemma rstrip_by_snoc_drop (f : N -> bool) (d : str) (x : N) :
  f x = true -> rstrip_by f (d ++ [x]) = rstrip_by f d.
Proof.
  intros Hx. unfold rstrip_by. rewrite rev_app_distr. cbn. rewrite Hx. reflexivity.
Qed.

Lemma endswith_snoc (d : str) (x y : N) : endswith (d ++ [x]) [y] = N.eqb x y.
Proof.
  unfold endswith. rewrite rev_app_distr. cbn. apply andb_true_r.
Qed.

(** Joining a directory name with a file name gives back both. *)
Lemma dirname_basename_join (d b : str) :
  dir_shape d -> ~ In sep b ->
  dirname (join d b) = d /\ basename (join d b) = b.
Proof.
  intros Hd Hb. unfold join.
  assert (Hstart : startswith b [sep] = false).
  { destruct b as [|c b]; [reflexivity|]. cbn.
    destruct (N.eqb_spec c sep) as [->|]; [|reflexivity].
    exfalso. apply Hb. left; reflexivity. }
  rewrite Hstart. destruct Hd as [|d Hall|d x Hx].
  - cbn. apply split_no_sep, Hb.
  - assert (Hne : nonempty (d ++ [sep]) = true) by (destruct d; reflexivity).
    rewrite Hne, endswith_snoc, N.eqb_refl. cbn [negb orb].
    rewrite <- app_assoc. cbn [app].
    destruct (split_at_last_sep d b Hb) as [Hhead Hbase].
    split; [|exact Hbase].
    unfold dirname. rewrite Hhead, Hne, Hall. reflexivity.
  - assert (Hne : nonempty (d ++ [x]) = true) by (destruct d; reflexivity).
    rewrite Hne, endswith_snoc. change (N.eqb x sep) with (is_sep x). rewrite Hx.
    cbn [negb orb app].
    destruct (split_at_last_sep (d ++ [x]) b Hb) as [Hhead Hbase].
    split; [|exact Hbase].
    unfold dirname. rewrite Hhead.
    assert (Hne' : nonempty ((d ++ [x]) ++ [sep]) = true) by (destruct d; reflexivity).
    assert (Hall : all_sep ((d ++ [x]) ++ [sep]) = false).
    { unfold all_sep. rewrite !forallb_app. cbn. rewrite Hx.
      rewrite andb_false_r. reflexivity. }
    rewrite Hne', Hall. cbn [negb andb].
    rewrite rstrip_by_snoc_drop by apply N.eqb_refl.
    apply rstrip_by_snoc_keep, Hx.
Qed.

Lemma In_slice_to {A} (x : A) (i : Z) (s : list A) : In x (slice_to i s) -> In x s.
Proof.
  unfold slice_to. intros H. rewrite <- (firstn_skipn (Z.to_nat i) s).
  apply in_or_app. left; exact H.
Qed.

Lemma basename_no_sep (p : str) : ~ In sep (basename p).
Proof.
  destruct (rfind_cases sep p) as [[H _] | (a & b & -> & H & _)].
  - destruct (split_no_sep p H) as [_ ->]. exact H.
  - destruct (split_at_last_sep a b H) as [_ ->]. exact H.
Qed.

(** The stem [splitext] returns is a prefix of its argument. *)
Lemma splitext_stem_In (x : N) (p : str) : In x (fst (splitext p)) -> In x p.
Proof.
  unfold splitext. destruct (_ && _); cbn [fst]; [apply In_slice_to | exact id].
Qed.

(** What [splitext] returns puts its argument together again. *)
Lemma splitext_app (p : str) : fst (splitext p) ++ snd (splitext p) = p.
Proof.
  unfold splitext. destruct (_ && _); cbn [fst snd].
  - apply firstn_skipn.
  - apply app_nil_r.
Qed.

End posixpath_facts.

Example generate_output_filename_values :
  map (fun p => generate_output_filename p None)
      (map py ["dir/sub/report.final.pdf"; "report.pdf"; "/report.pdf"; "a/b/"; "x/.hidden"]%string)
  = map py ["dir/sub/report.final.docx"; "report.docx"; "/report.docx"; "a/b/.docx";
            "x/.hidden.docx"]%string
  /\ generate_output_filename (py "in/a.pdf") (Some (py "out/b.docx")) = py "out/b.docx"
  /\ generate_output_filename (py "in/a.pdf") (Some []) = py "in/a.docx".
Proof. vm_compute. repeat split. Qed.

(** ** Batch mode *)

Section batch_facts.

Variable E : Env.
Variables (output_path : str) (total : Z).

(** One iteration: the file's conversion is called once, on the converter
    the state holds; the iteration prints the file's block, adds one to the
    counter the outcome selects, and never raises. *)
Lemma batch_step_run (i : Z) (pdf_file : str) (st : batch_state E)
    (out : list message) :
  batch_step E output_path total i pdf_file st out
  = let output_file :=
      path_div E output_path (path_stem E pdf_file ++ py ".docx") in
    let rc := converter_convert E (the_converter E st) pdf_file output_file in
    (Ok {| successful := if is_success (fst rc) then successful E st + 1
                         else successful E st;
           failed := if is_success (fst rc) then failed E st
                     else failed E st + 1;
           the_converter := snd rc |},
     out ++ [MsgProcessing i total (path_name E pdf_file); result_message (fst rc)]).
Proof.
  unfold batch_step. cbn zeta.
  destruct (converter_convert E _ _ _) as [[[|]|e] c']; cbn;
    rewrite <- app_assoc; reflexivity.
Qed.

(** The loop returns, and its console is the blocks of the conversions,
    file after file. *)
Lemma batch_loop_run (pdf_files : list str) :
  forall (i : Z) (st : batch_state E) (out : list message),
    batch_loop E output_path total i pdf_files st out
    = let cs := conversions E output_path pdf_files (the_converter E st) in
      (Ok {| successful := successful E st + successes cs;
             failed := failed E st + failures cs;
             the_converter :=
               converter_after E output_path pdf_files (the_converter E st) |},
       out ++ blocks E total i cs).
Proof.
  induction pdf_files as [|pdf_file rest IH]; intros i st out.
  - cbn. unfold ret, successes, failures, len. cbn.
    rewrite !Z.add_0_r, app_nil_r. destruct st; reflexivity.
  - cbn [batch_loop]. unfold bindM. rewrite batch_step_run. cbv beta iota zeta.
    rewrite IH. cbn [conversions converter_after the_converter successful failed].
    destruct (converter_convert E _ _ _) as [r c']. cbn [fst snd blocks].
    rewrite <- app_assoc. cbn [app]. f_equal.
    unfold successes, failures, len.
    destruct r as [[|]|e]; cbn [is_success negb List.filter snd length];
      f_equal; f_equal; lia.
Qed.

Lemma conversions_length (pdf_files : list str) :
  forall c, length (conversions E output_path pdf_files c) = length pdf_files.
Proof.
  induction pdf_files as [|f rest IH]; intros c; cbn; [reflexivity|].
  destruct (converter_convert E _ _ _). cbn. rewrite IH. reflexivity.
Qed.



Lemma successes_failures (cs : list (str * outcome bool)) :
  successes cs + failures cs = len cs.
Proof.
  unfold successes, failures, len. induction cs as [|[f r] cs IH]; cbn; [reflexivity|].
  destruct (is_success r); cbn; lia.
Qed.

End batch_facts.

(** C7: when the conversion of a file raises an exception, the iteration
    catches it and ends normally with [failed] one higher and [successful]
    unchanged; the loop goes on with the files that remain, prints the block
    of each of them, and returns. *)
Theorem batch_exception_is_counted (E : Env) (output_path : str) (total i : Z)
    (pdf_file : str) (rest : list str) (st : batch_state E) (out : list message)
    (e : exception) (c' : converter E) :
  converter_convert E (the_converter E st) pdf_file
    (path_div E output_path (path_stem E pdf_file ++ py ".docx")) = (Throws e, c') ->
  let st' := {| successful := successful E st; failed := failed E st + 1;
                the_converter := c' |} in
  let out' := out ++ [MsgProcessing i total (path_name E pdf_file); MsgFileError e] in
  batch_step E output_path total i pdf_file st out = (Ok st', out')
  /\ batch_loop E output_path total i (pdf_file :: rest) st out
     = batch_loop E output_path total (i + 1) rest st' out'
  /\ exists final,
       batch_loop E output_path total i (pdf_file :: rest) st out
       = (Ok final, out' ++ blocks E total (i + 1) (conversions E output_path rest c')).
Proof.
  intros Hconv st' out'.
  assert (Hstep : batch_step E output_path total i pdf_file st out = (Ok st', out')).
  { rewrite batch_step_run. cbv beta iota zeta. rewrite Hconv. reflexivity. }
  assert (Hloop : batch_loop E output_path total i (pdf_file :: rest) st out
                  = batch_loop E output_path total (i + 1) rest st' out').
  { cbn [batch_loop]. unfold bindM. rewrite Hstep. reflexivity. }
  repeat split; [exact Hstep | exact Hloop |].
  rewrite Hloop, batch_loop_run. cbv beta iota zeta.
  eexists. reflexivity.
Qed.

Lemma batch_exception_is_counted_witness :
  fst (batch_loop demo_env (py "out") 3 3 [py "in/c.pdf"]
         (Build_batch_state demo_env 1 1 2%nat) [])
  = Ok (Build_batch_state demo_env 1 2 3%nat).
Proof.
  destruct (batch_exception_is_counted demo_env (py "out") 3 3 (py "in/c.pdf") []
              (Build_batch_state demo_env 1 1 2%nat) []
              RuntimeError 3%nat eq_refl) as (_ & H & _).
  rewrite H. reflexivity.
Defined.





(** ** Exit codes *)

Lemma command_handler_run (v : bool) (e : exception) (out : list message) :
  command_handler v e out
  = (Raise (SystemExit 1),
     out ++ MsgError e :: (if v then [MsgTraceback e] else [])).
Proof.
  unfold command_handler, bindM, print, sys_exit, lift, ret.
  destruct v; cbn; rewrite <- ?app_assoc; reflexivity.
Qed.

(** The [try] block of [batch] returns or raises an exception; nothing in it
    calls [sys.exit]. *)
Lemma batch_try_no_exit (E : Env) (input_dir output_dir : str) (cfg : config)
    (out : list message) (code : Z) :
  fst (batch_try E input_dir output_dir cfg out) <> Raise (SystemExit code).
Proof.
  unfold batch_try, bindM, lift, print, call.
  destruct (path_glob_pdf E (Path E input_dir)) as [[|f files]|e];
    cbv beta iota; [discriminate| |discriminate].
  destruct (path_mkdir E (Path E output_dir)) as [[]|e];
    cbv beta iota; [|discriminate].
  destruct (converter_new E cfg) as [c|e]; cbv beta iota; [|discriminate].
  rewrite batch_loop_run. cbv beta iota zeta. discriminate.
Qed.

(** A command whose [try] block does not exit by itself ends with 1 when the
    block raised and with 0 when it returned. *)
Lemma try_exit_code (v : bool) (body : M unit) (out : list message) :
  (forall code, fst (body out) <> Raise (SystemExit code)) ->
  exit_code (fst (try_except body (command_handler v) out))
  = if raised_exception (fst (body out)) then 1 else 0.
Proof.
  intros Hno. unfold try_except.
  destruct (body out) as [[[]|[e|code]] out'] eqn:Hb;
    cbn [fst raised_exception].
  - reflexivity.
  - rewrite command_handler_run. reflexivity.
  - exfalso. exact (Hno code eq_refl).
Qed.

Lemma convert_with_validate_file (E : Env) (input_file output_file : str)
    (cfg : config) :
  convert E input_file output_file cfg
  = convert_with E (validate_file E (PPath (Path E input_file)) (py ".pdf"))
      input_file output_file cfg.
Proof. reflexivity. Qed.

Lemma format_1f_no_exit (x : number) (code : Z) :
  format_1f x <> Raise (SystemExit code).
Proof.
  destruct x as [n|m e]; cbn [format_1f]; [|discriminate].
  destruct (float_of_int n); discriminate.
Qed.

Lemma size_loop_no_exit (units : list string) (code : Z) :
  forall x, size_loop units x <> Raise (SystemExit code).
Proof.
  induction units as [|unit units IH]; intros x; cbn [size_loop].
  - pose proof (format_1f_no_exit x code).
    destruct (format_1f x) as [t|[e|c]]; cbn [bindR]; congruence.
  - destruct (lt_1024 x).
    + pose proof (format_1f_no_exit x code).
      destruct (format_1f x) as [t|[e|c]]; cbn [bindR]; congruence.
    + destruct x as [n|m e]; cbn [div_1024].
      * destruct (float_of_int n); cbn [bindR]; [apply IH | discriminate].
      * cbn [bindR]. apply IH.
Qed.

(** [get_file_size] does not exit. *)
Lemma get_file_size_no_exit (E : Env) (file_path : pathlike) (code : Z) :
  get_file_size E file_path <> Raise (SystemExit code).
Proof.
  unfold get_file_size, os_path_getsize, try_exceptR.
  destruct (has_nul (fspath file_path)); cbn [bindR]; [discriminate|].
  destruct (fs_size E (fspath file_path)) as [n|]; cbn [bindR].
  - pose proof (size_loop_no_exit ["B"; "KB"; "MB"; "GB"]%string code (PyInt n)).
    destruct (size_loop _ _) as [t|[e|c]]; [discriminate| |congruence].
    destruct (is_OSError e); discriminate.
  - destruct (unencodable (fspath file_path)); discriminate.
Qed.

(** What [convert] does by design, whatever the validation answers: it ends
    with 0 when every step succeeds and with 1 otherwise, that is when the
    validation returns [False], when a step raises an exception and when
    the converter returns [False]. *)
Lemma convert_with_exit_code (E : Env) (valid : M bool)
    (input_file output_file : str) (cfg : config) (out : list message) :
  (forall code, fst (valid (out ++ [MsgConvertHeader])) <> Raise (SystemExit code)) ->
  exit_code (fst (convert_with E valid input_file output_file cfg out))
  = if convert_succeeds E valid input_file output_file cfg (out ++ [MsgConvertHeader])
    then 0 else 1.
Proof.
  intros Hvalid.
  unfold convert_with, convert_try_with, convert_succeeds, try_except, bindM,
    print, lift, call, sys_exit, ret.
  cbv beta iota zeta.
  destruct (valid (out ++ [MsgConvertHeader])) as [[[|]|[e|code]] out1];
    cbn [fst negb] in Hvalid |- *.
  - destruct (path_mkdir E (path_parent E (Path E output_file))) as [[]|e];
      cbv beta iota; [|rewrite command_handler_run; reflexivity].
    pose proof (get_file_size_no_exit E (PPath (Path E input_file))) as Hsize.
    destruct (get_file_size E (PPath (Path E input_file))) as [size|[e|code]];
      cbv beta iota;
      [|rewrite command_handler_run; reflexivity|exfalso; exact (Hsize code eq_refl)].
    destruct (converter_new E cfg) as [c|e]; cbv beta iota;
      [|rewrite command_handler_run; reflexivity].
    destruct (converter_convert E c (Path E input_file) (Path E output_file))
      as [[[|]|e] c']; cbv beta iota.
    + destruct (verbose cfg); cbn [negb orb]; cbv beta iota; [|reflexivity].
      destruct (converter_get_stats E c') as [st|e]; cbv beta iota;
        [reflexivity | rewrite command_handler_run; reflexivity].
    + reflexivity.
    + rewrite command_handler_run. reflexivity.
  - reflexivity.
  - rewrite command_handler_run. reflexivity.
  - exfalso. exact (Hvalid code eq_refl).
Qed.

Lemma batch_exit_code (E : Env) (input_dir output_dir : str) (cfg : config)
    (out : list message) :
  exit_code (fst (batch E input_dir output_dir cfg out))
  = if raised_exception (fst (batch_try E input_dir output_dir cfg
                                (out ++ [MsgBatchHeader])))
    then 1 else 0.
Proof.
  unfold batch, bindM, print. cbn [fst snd].
  apply try_exit_code. intros code. apply batch_try_no_exit.
Qed.

(** C6, as amended: an invocation whose arguments [click] rejects ends with
    exit code 2 and the command does not run.  An invocation it accepts ends,
    for [batch], with 1 when the [try] block raised an exception and with 0
    otherwise; for [convert], with 1: by design with 1 when the validation
    fails, when a step raises an exception and when the converter reports a
    failure, and with 0 otherwise, and the validation as it is written never
    succeeds. *)
Theorem invocation_exit_code (E : Env) (os_stat_kind : str -> option file_kind)
    (os_access_read : str -> bool) (input output : str) (cfg : config)
    (out : list message) :
  convert_invocation E os_stat_kind os_access_read input output cfg out
  = (if convert_accepted os_stat_kind os_access_read input output cfg
     then 1 else 2)
  /\ batch_invocation E os_stat_kind os_access_read input output cfg out
     = (if batch_accepted os_stat_kind os_access_read input output cfg
        then if raised_exception
                  (fst (batch_try E input output cfg (out ++ [MsgBatchHeader])))
             then 1 else 0
        else 2)
  /\ (forall valid : M bool,
        (forall code,
           fst (valid (out ++ [MsgConvertHeader])) <> Raise (SystemExit code)) ->
        exit_code (fst (convert_with E valid input output cfg out))
        = if convert_succeeds E valid input output cfg (out ++ [MsgConvertHeader])
          then 0 else 1).
Proof.
  split; [|split].
  - unfold convert_invocation. rewrite convert_run. reflexivity.
  - unfold batch_invocation. rewrite batch_exit_code. reflexivity.
  - intros valid Hvalid. apply convert_with_exit_code, Hvalid.
Qed.

Lemma invocation_exit_code_witness :
  exit_code (fst (convert_with demo_env (ret true) (py "in/a.pdf")
                    (py "out/a.docx") demo_config [])) = 0
  /\ exit_code (fst (convert_with demo_env (ret true) (py "in/b.pdf")
                       (py "out/b.docx") demo_config [])) = 1.
Proof.
  split.
  - destruct (invocation_exit_code demo_env demo_stat_kind (fun _ => true)
                (py "in/a.pdf") (py "out/a.docx") demo_config []) as (_ & _ & H).
    rewrite (H (ret true)); [reflexivity | discriminate].
  - destruct (invocation_exit_code demo_env demo_stat_kind (fun _ => true)
                (py "in/b.pdf") (py "out/b.docx") demo_config []) as (_ & _ & H).
    rewrite (H (ret true)); [reflexivity | discriminate].
Defined.

(** C6, as stated, fails for [convert] on an input file that does not exist:
    [click] rejects the argument and the process ends with 2, neither 1 nor
    0. *)
Lemma convert_invocation_missing_input :
  demo_stat_kind (py "in/missing.pdf") = None
  /\ convert_invocation demo_env demo_stat_kind (fun _ => true)
       (py "in/missing.pdf") (py "out/a.docx") demo_config [] = 2
  /\ convert_invocation demo_env demo_stat_kind (fun _ => true)
       (py "in/missing.pdf") (py "out/a.docx") demo_config [] <> 1
  /\ convert_invocation demo_env demo_stat_kind (fun _ => true)
       (py "in/missing.pdf") (py "out/a.docx") demo_config [] <> 0.
Proof. vm_compute. repeat split; discriminate. Qed.

(** An accepted invocation of [convert] ends with 1, one of [batch] with 0
    also when conversions fail. *)
Example invocation_values :
  convert_invocation demo_env demo_stat_kind (fun _ => true)
    (py "in/a.pdf") (py "out/a.docx") demo_config [] = 1
  /\ batch_invocation demo_env demo_stat_kind (fun _ => true)
       (py "in") (py "out") demo_config [] = 0
  /\ batch_invocation demo_env demo_stat_kind (fun _ => true)
       (py "in/a.pdf") (py "out") demo_config [] = 2.
Proof. vm_compute. repeat split. Qed.

(** Both exit codes occur for [batch]: 0 also when a conversion failed or
    raised, 1 when the output directory cannot be made. *)
Example batch_exit_codes :
  exit_code (fst (batch demo_env (py "in") (py "out") demo_config [])) = 0
  /\ exit_code (fst (batch demo_env (py "empty") (py "out") demo_config [])) = 0
  /\ let E := {| str_lower := str_lower demo_env; fs_exists := fs_exists demo_env;
                 fs_size := fs_size demo_env; fitz_open := fitz_open demo_env;
                 Path := Path demo_env; path_name := path_name demo_env;
                 path_stem := path_stem demo_env; path_parent := path_parent demo_env;
                 path_div := path_div demo_env; path_absolute := path_absolute demo_env;
                 path_glob_pdf := path_glob_pdf demo_env;
                 path_mkdir := fun _ => Throws OSError;
                 converter := nat; converter_new := converter_new demo_env;
                 converter_convert := demo_convert;
                 converter_get_stats := converter_get_stats demo_env |} in
     exit_code (fst (batch E (py "in") (py "out") demo_config [])) = 1.
Proof. vm_compute. repeat split. Qed.

(** ** [get_pdf_info] *)

Lemma error_info_keys (size : str) :
  dom (error_info size)
  = ({["pages"; "size"; "title"; "author"; "has_text"; "has_images"]} : gset string)%string.
Proof.
  unfold error_info. rewrite !dom_insert_L, dom_empty_L. set_solver.
Qed.

Lemma error_info_values (size : str) :
  error_info size !! "pages"%string = Some (VInt 0)
  /\ error_info size !! "size"%string = Some (VStr size)
  /\ error_info size !! "title"%string = Some (VStr (py "Error al leer"))
  /\ error_info size !! "author"%string = Some (VStr (py "Desconocido"))
  /\ error_info size !! "has_text"%string = Some (VBool false)
  /\ error_info size !! "has_images"%string = Some (VBool false).
Proof. unfold error_info. repeat split; by simplify_map_eq. Qed.

(** On a path without NUL character whose size can be formatted, a failure
    to open or read the PDF gives the dict of the [except] clause. *)
Lemma get_pdf_info_error (E : Env) (pdf_path : str) (out : list message)
    (e : exception) (size : str) :
  get_pdf_info_try E pdf_path = Raise (Exc e) ->
  get_file_size E (PStr pdf_path) = Ok size ->
  get_pdf_info E pdf_path out = (Ok (error_info size), out ++ [MsgPdfReadError e]).
Proof.
  intros Htry Hsize. unfold get_pdf_info, try_except, lift, bindM, print, ret.
  rewrite Htry, Hsize. reflexivity.
Qed.

(** On a path with a NUL character the [try] block raises, and so does the
    [except] clause, when it calls [get_file_size]: the [ValueError] of
    [os.stat] leaves [get_pdf_info]. *)
Lemma get_pdf_info_nul (E : Env) (pdf_path : str) (out : list message) :
  has_nul pdf_path = true ->
  fst (get_pdf_info E pdf_path out) = Raise (Exc ValueError).
Proof.
  intros Hnul.
  assert (Hsize : get_file_size E (PStr pdf_path) = Raise (Exc ValueError))
    by (apply get_file_size_nul; exact Hnul).
  unfold get_pdf_info, try_except, lift, bindM, print, ret.
  assert (Htry : exists e, get_pdf_info_try E pdf_path = Raise (Exc e)).
  { unfold get_pdf_info_try. destruct (fitz_open E pdf_path) as [doc|e]; cbn.
    - rewrite Hsize. cbn. eauto.
    - eauto. }
  destruct Htry as [e ->]. rewrite Hsize. reflexivity.
Qed.

(** For the paths that have no NUL character and can be encoded the claim
    holds: [get_pdf_info] returns a dict, the one of the [except] clause
    whenever opening or reading raised. *)
Lemma get_file_size_returns (E : Env) (file_path : pathlike) :
  has_nul (fspath file_path) = false ->
  unencodable (fspath file_path) = false ->
  (forall n, fs_size E (fspath file_path) = Some n -> 0 <= n < 2 ^ 63) ->
  exists size, get_file_size E file_path = Ok size.
Proof.
  intros Hnul Henc Hbound.
  destruct (fs_size E (fspath file_path)) as [n|] eqn:Hsize.
  - destruct (get_file_size_bounded E file_path n Hnul Hsize (Hbound n eq_refl)) as [s Hs].
    eauto.
  - rewrite get_file_size_unknown by assumption. eauto.
Qed.

Lemma scan_text_no_exit (pages : list Page) (code : Z) :
  scan_text pages <> Raise (SystemExit code).
Proof.
  induction pages as [|page pages IH]; cbn; [discriminate|].
  destruct (get_text page) as [text|e]; cbn; [|discriminate].
  destruct (str_strip text); [exact IH | discriminate].
Qed.

Lemma scan_images_no_exit (pages : list Page) (code : Z) :
  scan_images pages <> Raise (SystemExit code).
Proof.
  induction pages as [|page pages IH]; cbn; [discriminate|].
  destruct (get_images page) as [[|x l]|e]; cbn; [exact IH | discriminate..].
Qed.

Lemma get_pdf_info_try_no_exit (E : Env) (pdf_path size : str) (code : Z) :
  get_file_size E (PStr pdf_path) = Ok size ->
  get_pdf_info_try E pdf_path <> Raise (SystemExit code).
Proof.
  intros Hsize. unfold get_pdf_info_try.
  destruct (fitz_open E pdf_path) as [doc|e]; cbn [call bindR]; [|discriminate].
  rewrite Hsize. cbn [bindR].
  destruct (doc_metadata doc) as [metadata|e]; cbn [call bindR]; [|discriminate].
  pose proof (scan_text_no_exit (first_pages doc) code) as Ht.
  destruct (scan_text (first_pages doc)) as [t|[e|c]]; cbn [bindR];
    [|discriminate|congruence].
  pose proof (scan_images_no_exit (first_pages doc) code) as Hi.
  destruct (scan_images (first_pages doc)) as [i|[e|c]]; cbn [bindR];
    [discriminate|discriminate|congruence].
Qed.

Lemma get_pdf_info_returns (E : Env) (pdf_path : str) (out : list message) :
  has_nul pdf_path = false ->
  unencodable pdf_path = false ->
  (forall n, fs_size E pdf_path = Some n -> 0 <= n < 2 ^ 63) ->
  exists info,
    fst (get_pdf_info E pdf_path out) = Ok info
    /\ (forall r, get_pdf_info_try E pdf_path = Raise r ->
          exists size, info = error_info size).
Proof.
  intros Hnul Henc Hbound.
  destruct (get_file_size_returns E (PStr pdf_path) Hnul Henc Hbound)
    as [size Hsize].
  pose proof (get_pdf_info_try_no_exit E pdf_path size) as Hno.
  unfold get_pdf_info, try_except, lift, bindM, print, ret.
  destruct (get_pdf_info_try E pdf_path) as [info|[e|code]] eqn:Htry.
  - exists info. split; [reflexivity|]. intros r Hr; discriminate.
  - rewrite Hsize. exists (error_info size). split; [reflexivity|]. eauto.
  - exfalso. exact (Hno code Hsize eq_refl).
Qed.

(** C9, at the path ["in/a", NUL, ".pdf"]: opening the PDF raises, and
    [get_pdf_info] does not return the dict of its [except] clause: it
    raises [ValueError]. *)
Theorem get_pdf_info_failing_input :
  let pdf_path := py "in/a" ++ [0%N] ++ py ".pdf" in
  fitz_open demo_env pdf_path = Throws RuntimeError
  /\ get_pdf_info demo_env pdf_path []
     = (Raise (Exc ValueError), [MsgPdfReadError RuntimeError]).
Proof. vm_compute. split; reflexivity. Qed.

Example get_pdf_info_values :
  fst (get_pdf_info demo_env (py "in/b.pdf") []) = Ok (error_info (py "Desconocido"))
  /\ (exists info, fst (get_pdf_info demo_env (py "in/a.pdf") []) = Ok info
        /\ info !! "pages"%string = Some (VInt 2)
        /\ info !! "size"%string = Some (VStr (py "2.5 MB"))
        /\ info !! "title"%string = Some (VStr (py "Report"))
        /\ info !! "author"%string = Some (VStr (py "Desconocido"))
        /\ info !! "has_text"%string = Some (VBool true)
        /\ info !! "has_images"%string = Some (VBool true)).
Proof.
  split; [vm_compute; reflexivity|].
  eexists. split; [vm_compute; reflexivity|].
  repeat split; vm_compute; reflexivity.
Qed.

(** * Further properties of the code *)

(** ** The string computed by [sanitize_filename] *)

Lemma lstrip_by_split (f : N -> bool) (s : str) :
  exists removed, s = removed ++ lstrip_by f s /\ forallb f removed = true.
Proof.
  induction s as [|c s (removed & Heq & Hall)]; cbn.
  - exists []. split; reflexivity.
  - destruct (f c) eqn:Hc.
    + exists (c :: removed). cbn. rewrite Hc, Hall. split; [f_equal; exact Heq | reflexivity].
    + exists []. split; reflexivity.
Qed.

Lemma lstrip_by_head (f : N -> bool) (s : str) (c : N) (rest : str) :
  lstrip_by f s = c :: rest -> f c = false.
Proof.
  induction s as [|x s IH]; cbn; [discriminate|].
  destruct (f x) eqn:Hx; [exact IH|]. intros [= -> _]. exact Hx.
Qed.

Lemma lstrip_by_fixed (f : N -> bool) (s : str) :
  (forall c rest, s = c :: rest -> f c = false) -> lstrip_by f s = s.
Proof.
  destruct s as [|c s]; [reflexivity|]. intros Hhead. cbn.
  rewrite (Hhead c s eq_refl). reflexivity.
Qed.

Lemma rstrip_by_split (f : N -> bool) (s : str) :
  exists removed, s = rstrip_by f s ++ removed /\ forallb f removed = true.
Proof.
  unfold rstrip_by. destruct (lstrip_by_split f (rev s)) as (removed & Heq & Hall).
  exists (rev removed). split.
  - rewrite <- (rev_involutive s), Heq at 1. apply rev_app_distr.
  - rewrite posixpath_facts.forallb_rev_eq. exact Hall.
Qed.

Lemma rstrip_by_last (f : N -> bool) (s kept : str) (c : N) :
  rstrip_by f s = kept ++ [c] -> f c = false.
Proof.
  unfold rstrip_by. intros Heq.
  apply (f_equal (@rev N)) in Heq. rewrite rev_involutive, rev_app_distr in Heq.
  cbn in Heq. exact (lstrip_by_head _ _ _ _ Heq).
Qed.

Lemma str_strip_head (s : str) (c : N) (rest : str) :
  str_strip s = c :: rest -> isspace c = false.
Proof.
  unfold str_strip. intros Heq.
  destruct (rstrip_by_split isspace (lstrip_by isspace s)) as (removed & Hsplit & _).
  rewrite Heq in Hsplit. cbn in Hsplit.
  exact (lstrip_by_head _ _ _ _ Hsplit).
Qed.

Lemma str_strip_last (s kept : str) (c : N) :
  str_strip s = kept ++ [c] -> isspace c = false.
Proof. apply rstrip_by_last. Qed.

Lemma str_strip_Forall (P : N -> Prop) (s : str) :
  Forall P s -> Forall P (str_strip s).
Proof.
  intros Hs. unfold str_strip.
  destruct (lstrip_by_split isspace s) as (r1 & H1 & _).
  destruct (rstrip_by_split isspace (lstrip_by isspace s)) as (r2 & H2 & _).
  rewrite H1, H2 in Hs.
  apply Forall_app in Hs as [_ Hs]. apply Forall_app in Hs as [Hs _]. exact Hs.
Qed.

(** Stripping a string that neither starts nor ends with white space
    changes nothing. *)
Lemma str_strip_fixed (s : str) :
  (forall c rest, s = c :: rest -> isspace c = false) ->
  (forall kept c, s = kept ++ [c] -> isspace c = false) ->
  str_strip s = s.
Proof.
  intros Hhead Hlast. unfold str_strip. rewrite (lstrip_by_fixed _ _ Hhead).
  unfold rstrip_by. rewrite lstrip_by_fixed; [apply rev_involutive|].
  intros c rest Heq. apply (Hlast (rev rest) c).
  rewrite <- (rev_involutive s), Heq. reflexivity.
Qed.

Lemma replaced_valid (c : N) :
  is_invalid (if is_invalid c then underscore else c) = false.
Proof. destruct (is_invalid c) eqn:Hc; [reflexivity | exact Hc]. Qed.

(** X1: the string the body of [sanitize_filename] holds when it reaches its
    [return] contains none of the nine characters, has at most 200
    characters and does not start with white space. *)
Theorem sanitize_filename_local_clean (filename : str) :
  Forall (fun c => is_invalid c = false) (sanitize_filename_local filename)
  /\ (length (sanitize_filename_local filename) <= 200)%nat
  /\ (forall c rest, sanitize_filename_local filename = c :: rest -> isspace c = false).
Proof.
  rewrite sanitize_filename_local_spec. unfold sanitized.
  set (mapped := map _ filename).
  assert (Hvalid : Forall (fun c => is_invalid c = false) mapped).
  { unfold mapped. apply Forall_map, Forall_forall. intros c _. apply replaced_valid. }
  repeat split.
  - apply Forall_take, str_strip_Forall, Hvalid.
  - rewrite length_firstn. lia.
  - intros c rest Heq. destruct (str_strip mapped) as [|x s] eqn:Hs; [discriminate|].
    cbn in Heq. injection Heq as <- _. exact (str_strip_head _ _ _ Hs).
Qed.

Lemma replace_valid_id (s : str) :
  Forall (fun c => is_invalid c = false) s ->
  map (fun c => if is_invalid c then underscore else c) s = s.
Proof.
  induction 1 as [|c s Hc _ IH]; cbn [map]; [reflexivity|]. rewrite Hc, IH. reflexivity.
Qed.

(** X2: when nothing was cut, that is when the string has fewer than 200
    characters, it does not end with white space either, and sanitizing it
    again gives the same string. *)
Theorem sanitize_filename_local_idempotent (filename : str) :
  (length (sanitize_filename_local filename) < 200)%nat ->
  (forall kept c, sanitize_filename_local filename = kept ++ [c] -> isspace c = false)
  /\ sanitize_filename_local (sanitize_filename_local filename)
     = sanitize_filename_local filename.
Proof.
  rewrite !sanitize_filename_local_spec. unfold sanitized at 1 2 4.
  set (mapped := map _ filename). set (t := str_strip mapped).
  intros Hlen.
  assert (Ht : firstn 200 t = t).
  { apply firstn_all2. rewrite length_firstn in Hlen. lia. }
  rewrite Ht. split.
  - intros kept c Heq. exact (str_strip_last _ _ _ Heq).
  - unfold sanitized.
    assert (Hvalid : Forall (fun c => is_invalid c = false) t).
    { apply str_strip_Forall. unfold mapped.
      apply Forall_map, Forall_forall. intros c _. apply replaced_valid. }
    rewrite (replace_valid_id _ Hvalid).
    rewrite (str_strip_fixed t).
    + reflexivity.
    + intros c rest Heq. exact (str_strip_head _ _ _ Heq).
    + intros kept c Heq. exact (str_strip_last _ _ _ Heq).
Qed.

Lemma sanitize_filename_local_idempotent_witness :
  sanitize_filename_local (sanitize_filename_local (py "  a<b>?.pdf "))
  = sanitize_filename_local (py "  a<b>?.pdf ").
Proof.
  apply (sanitize_filename_local_idempotent (py "  a<b>?.pdf ")).
  vm_compute. lia.
Defined.

(** ** [get_file_size] and [validate_file] *)

(** X3: [get_file_size] raises exactly on the paths [os.stat] refuses: those
    with a NUL character, and those it cannot read because they cannot be
    encoded.  Both give a [ValueError], which is not an [OSError] and leaves
    the function; a file that cannot be read for another reason gives
    ["Desconocido"].  (Sizes are below [2^63], as [os.stat] gives them.) *)
Theorem get_file_size_failures (E : Env) (file_path : pathlike) :
  (forall n, fs_size E (fspath file_path) = Some n -> 0 <= n < 2 ^ 63) ->
  ((exists r, get_file_size E file_path = Raise r)
   <-> has_nul (fspath file_path) = true
       \/ (fs_size E (fspath file_path) = None
           /\ unencodable (fspath file_path) = true))
  /\ (has_nul (fspath file_path) = true
      \/ (fs_size E (fspath file_path) = None
          /\ unencodable (fspath file_path) = true) ->
      get_file_size E file_path = Raise (Exc ValueError))
  /\ (has_nul (fspath file_path) = false ->
      unencodable (fspath file_path) = false ->
      fs_size E (fspath file_path) = None ->
      get_file_size E file_path = Ok (py "Desconocido")).
Proof.
  intros Hbound.
  assert (Hraise : has_nul (fspath file_path) = true
                   \/ (fs_size E (fspath file_path) = None
                       /\ unencodable (fspath file_path) = true) ->
                   get_file_size E file_path = Raise (Exc ValueError)).
  { intros [Hn | [Hsize Henc]].
    - apply get_file_size_nul, Hn.
    - apply get_file_size_unencodable; assumption. }
  split; [|split; [exact Hraise|]].
  - split.
    + intros [r Hr].
      destruct (has_nul (fspath file_path)) eqn:Hn; [left; reflexivity|].
      right.
      destruct (fs_size E (fspath file_path)) as [n|] eqn:Hsize.
      * destruct (get_file_size_bounded E file_path n Hn Hsize (Hbound n eq_refl))
          as [size Hs].
        congruence.
      * split; [reflexivity|].
        destruct (unencodable (fspath file_path)) eqn:Henc; [reflexivity|].
        rewrite (get_file_size_unknown E file_path Hn Henc Hsize) in Hr.
        discriminate.
    + intros Hcase. eexists. exact (Hraise Hcase).
  - apply get_file_size_unknown.
Qed.

Lemma get_file_size_failures_witness :
  get_file_size demo_env (PStr (py "in/b.pdf")) = Ok (py "Desconocido")
  /\ get_file_size demo_env (PPath (py "in/a" ++ [0%N])) = Raise (Exc ValueError)
  /\ get_file_size demo_env (PStr (py "in/" ++ [55296%N])) = Raise (Exc ValueError).
Proof.
  assert (Hbound : forall p n, fs_size demo_env p = Some n -> 0 <= n < 2 ^ 63).
  { intros p n.
    change (fs_size demo_env p)
      with (if str_eqb p (py "in/a.pdf") then Some 2621440 else None).
    destruct (str_eqb p (py "in/a.pdf")); [|discriminate].
    intros [= <-]. lia. }
  split; [|split].
  - apply (get_file_size_failures demo_env (PStr (py "in/b.pdf")) (Hbound _));
      reflexivity.
  - apply (get_file_size_failures demo_env (PPath (py "in/a" ++ [0%N])) (Hbound _)).
    left. reflexivity.
  - apply (get_file_size_failures demo_env (PStr (py "in/" ++ [55296%N])) (Hbound _)).
    right. split; reflexivity.
Defined.

Lemma round_half_even_bound (a b m : Z) :
  0 < b -> 0 <= a < b * m -> 0 <= round_half_even a b <= m.
Proof.
  intros Hb [Ha Hm]. unfold round_half_even.
  assert (Hq : 0 <= a / b) by (apply Z.div_pos; lia).
  assert (Hq' : a / b < m) by (apply Z.div_lt_upper_bound; lia).
  destruct (_ || _); lia.
Qed.

(** X4: below 1024 TB the number shown is never above 1024.0: the tenths
    [t] printed satisfy [0 <= t <= 10240], the unit is one of the five, and
    a size below 1024 bytes is shown as it is, with the decimal 0. *)
Theorem get_file_size_number_bound (E : Env) (file_path : pathlike) (n : Z) :
  has_nul (fspath file_path) = false ->
  fs_size E (fspath file_path) = Some n ->
  0 <= n < 1024 ^ 5 ->
  exists t unit,
    get_file_size E file_path
    = Ok (digits (t / 10) ++ py "." ++ digits (t mod 10) ++ py " " ++ py unit)
    /\ 0 <= t <= 10240
    /\ In unit unit_names
    /\ (n < 1024 -> t = 10 * n /\ unit = "B"%string).
Proof.
  intros Hnul Hsize [H0 H5].
  assert (Hrun : get_file_size E file_path = Ok (human_size n)).
  { unfold get_file_size, os_path_getsize. rewrite Hnul, Hsize. cbn [bindR].
    rewrite size_loop_small; [reflexivity|].
    split; [exact H0|]. eapply Z.lt_trans; [exact H5 | reflexivity]. }
  rewrite Hrun. unfold human_size, unit_index, format_1f_ratio.
  destruct (Z.ltb_spec n 1024) as [H1|H1];
    [|destruct (Z.ltb_spec n (1024 ^ 2)) as [H2|H2];
      [|destruct (Z.ltb_spec n (1024 ^ 3)) as [H3|H3];
        [|destruct (Z.ltb_spec n (1024 ^ 4)) as [H4|H4]]]];
    cbn [nth unit_names Z.of_nat];
    eexists _, _; (split; [rewrite <- !app_assoc; reflexivity|]);
    (split; [apply round_half_even_bound; [reflexivity|lia]|]);
    (split; [cbn; tauto|]); try lia.
  intros _. split; [|reflexivity].
  unfold round_half_even. change (1024 ^ 0) with 1.
  rewrite Z.div_1_r, Z.mod_1_r. reflexivity.
Qed.

Lemma get_file_size_number_bound_witness :
  exists t unit,
    get_file_size demo_env (PStr (py "in/a.pdf"))
    = Ok (digits (t / 10) ++ py "." ++ digits (t mod 10) ++ py " " ++ py unit)
    /\ 0 <= t <= 10240.
Proof.
  destruct (get_file_size_number_bound demo_env (PStr (py "in/a.pdf")) 2621440)
    as (t & unit & H1 & H2 & _); [reflexivity | reflexivity | lia |].
  exists t, unit. split; assumption.
Defined.

(** The bound is reached: one byte less than 1 MB is shown as 1024.0 KB. *)
Example human_size_1024 : human_size (1024 ^ 2 - 1) = py "1024.0 KB".
Proof. vm_compute. reflexivity. Qed.

(** X5: on a [str], [validate_file] prints nothing when it returns [True]
    and exactly one line when it returns [False]; and a path with a NUL
    character, [str] or [Path], is reported as not existing whatever the file
    system holds. *)
Theorem validate_file_console (E : Env) (extension : str) (out : list message) :
  (forall file_path,
     validate_file E (PStr file_path) extension out = (Ok true, out)
     \/ exists m, validate_file E (PStr file_path) extension out = (Ok false, out ++ [m]))
  /\ (forall file_path,
        has_nul (fspath file_path) = true ->
        validate_file E file_path extension out
        = (Ok false, out ++ [MsgNotExists file_path])).
Proof.
  split.
  - intros file_path. unfold validate_file.
    destruct (os_path_exists E (PStr file_path)); cbn; [|eauto].
    destruct (endswith _ _); cbn; eauto.
  - intros file_path Hnul. unfold validate_file, os_path_exists.
    rewrite Hnul. reflexivity.
Qed.

Lemma validate_file_console_witness :
  validate_file demo_env (PStr (py "in/a" ++ [0%N])) (py ".pdf") []
  = (Ok false, [MsgNotExists (PStr (py "in/a" ++ [0%N]))]).
Proof.
  apply (validate_file_console demo_env (py ".pdf") []). reflexivity.
Defined.

(** ** [get_pdf_info] *)

Lemma first_pages_firstn (doc : Doc) : first_pages doc = firstn 3 (doc_pages doc).
Proof.
  unfold first_pages, slice_to, len.
  destruct (Z.le_gt_cases 3 (Z.of_nat (length (doc_pages doc)))) as [H|H].
  - rewrite Z.min_l by exact H. reflexivity.
  - rewrite Z.min_r by lia. rewrite Nat2Z.id, firstn_all.
    symmetry. apply firstn_all2. lia.
Qed.

Lemma scan_text_plain (pages : list (str * list N)) :
  scan_text (map plain_page pages) = Ok (existsb has_content pages).
Proof.
  induction pages as [|[text images] pages IH]; [reflexivity|].
  cbn [map scan_text plain_page get_text call bindR fst existsb].
  unfold has_content at 1. cbn [fst].
  destruct (str_strip text); [exact IH | reflexivity].
Qed.

Lemma scan_images_plain (pages : list (str * list N)) :
  scan_images (map plain_page pages) = Ok (existsb has_image pages).
Proof.
  induction pages as [|[text images] pages IH]; [reflexivity|].
  cbn [map scan_images plain_page get_images call bindR snd existsb].
  unfold has_image at 1. cbn [snd].
  destruct images; [exact IH | reflexivity].
Qed.

Lemma make_info_has_text (pages size title author t i v : pyvalue) :
  <["has_text"%string := v]> (make_info pages size title author t i)
  = make_info pages size title author v i.
Proof.
  unfold make_info. apply map_eq. intros k.
  destruct (decide (k = "pages"%string)) as [->|?]; [by simplify_map_eq|].
  destruct (decide (k = "size"%string)) as [->|?]; [by simplify_map_eq|].
  destruct (decide (k = "title"%string)) as [->|?]; [by simplify_map_eq|].
  destruct (decide (k = "author"%string)) as [->|?]; [by simplify_map_eq|].
  destruct (decide (k = "has_text"%string)) as [->|?]; [by simplify_map_eq|].
  destruct (decide (k = "has_images"%string)) as [->|?]; by simplify_map_eq.
Qed.

Lemma make_info_has_images (pages size title author t i v : pyvalue) :
  <["has_images"%string := v]> (make_info pages size title author t i)
  = make_info pages size title author t v.
Proof.
  unfold make_info. apply map_eq. intros k.
  destruct (decide (k = "pages"%string)) as [->|?]; [by simplify_map_eq|].
  destruct (decide (k = "size"%string)) as [->|?]; [by simplify_map_eq|].
  destruct (decide (k = "title"%string)) as [->|?]; [by simplify_map_eq|].
  destruct (decide (k = "author"%string)) as [->|?]; [by simplify_map_eq|].
  destruct (decide (k = "has_text"%string)) as [->|?]; [by simplify_map_eq|].
  destruct (decide (k = "has_images"%string)) as [->|?]; by simplify_map_eq.
Qed.

Lemma make_info_keys (pages size title author t i : pyvalue) :
  dom (make_info pages size title author t i) = info_keys.
Proof.
  unfold make_info, info_keys. rewrite !dom_insert_L, dom_empty_L. set_solver.
Qed.

(** What the [try] block returns when it returns: the dict with the number
    of pages, the size, the title and the author as the metadata give them or
    their defaults, and two booleans. *)
Lemma get_pdf_info_try_shape (E : Env) (pdf_path : str) (info : gmap string pyvalue) :
  get_pdf_info_try E pdf_path = Ok info ->
  exists doc size metadata t i,
    fitz_open E pdf_path = Returns doc
    /\ get_file_size E (PStr pdf_path) = Ok size
    /\ doc_metadata doc = Returns metadata
    /\ scan_text (firstn 3 (doc_pages doc)) = Ok t
    /\ scan_images (firstn 3 (doc_pages doc)) = Ok i
    /\ info = make_info (VInt (len (doc_pages doc))) (VStr size)
                (dict_get metadata "title" (VStr sin_titulo))
                (dict_get metadata "author" (VStr (py "Desconocido")))
                (VBool t) (VBool i).
Proof.
  unfold get_pdf_info_try.
  destruct (fitz_open E pdf_path) as [doc|e] eqn:Hopen; cbn [call bindR];
    [|discriminate].
  destruct (get_file_size E (PStr pdf_path)) as [size|r] eqn:Hsize; cbn [bindR];
    [|discriminate].
  destruct (doc_metadata doc) as [metadata|e] eqn:Hmeta; cbn [call bindR];
    [|discriminate].
  rewrite first_pages_firstn.
  destruct (scan_text _) as [t|r] eqn:Ht; cbn [bindR]; [|discriminate].
  destruct (scan_images _) as [i|r] eqn:Hi; cbn [bindR]; [|discriminate].
  intros [= <-]. exists doc, size, metadata, t, i.
  repeat split; try assumption; try reflexivity.
  fold (make_info (VInt (len (doc_pages doc))) (VStr size)
          (dict_get metadata "title" (VStr sin_titulo))
          (dict_get metadata "author" (VStr (py "Desconocido")))
          (VBool false) (VBool false)).
  destruct t, i; rewrite ?make_info_has_text, ?make_info_has_images; reflexivity.
Qed.

(** X6: for a PDF that is read without error, [get_pdf_info] prints nothing
    and returns the number of pages, the size, the title and the author of
    the metadata (['Sin título'] and ['Desconocido'] when the key is
    missing), and whether one of the first three pages has text that is not
    blank, and whether one of them has an image. *)
Theorem get_pdf_info_plain (E : Env) (pdf_path : str)
    (pages : list (str * list N)) (metadata : gmap string pyvalue) (size : str)
    (out : list message) :
  fitz_open E pdf_path = Returns (plain_doc pages metadata) ->
  get_file_size E (PStr pdf_path) = Ok size ->
  get_pdf_info E pdf_path out
  = (Ok (make_info (VInt (len pages)) (VStr size)
           (dict_get metadata "title" (VStr sin_titulo))
           (dict_get metadata "author" (VStr (py "Desconocido")))
           (VBool (existsb has_content (firstn 3 pages)))
           (VBool (existsb has_image (firstn 3 pages)))),
     out).
Proof.
  intros Hopen Hsize.
  assert (Htry : get_pdf_info_try E pdf_path
                 = Ok (make_info (VInt (len pages)) (VStr size)
                         (dict_get metadata "title" (VStr sin_titulo))
                         (dict_get metadata "author" (VStr (py "Desconocido")))
                         (VBool (existsb has_content (firstn 3 pages)))
                         (VBool (existsb has_image (firstn 3 pages))))).
  { unfold get_pdf_info_try. rewrite Hopen, Hsize. cbn [call bindR].
    rewrite first_pages_firstn. cbn [plain_doc doc_pages doc_metadata call bindR].
    rewrite firstn_map, scan_text_plain, scan_images_plain. cbn [bindR].
    unfold len. rewrite length_map.
    fold (make_info (VInt (Z.of_nat (length pages))) (VStr size)
            (dict_get metadata "title" (VStr sin_titulo))
            (dict_get metadata "author" (VStr (py "Desconocido")))
            (VBool false) (VBool false)).
    destruct (existsb has_content _), (existsb has_image _);
      rewrite ?make_info_has_text, ?make_info_has_images; reflexivity. }
  unfold get_pdf_info, try_except, lift. rewrite Htry. reflexivity.
Qed.

Lemma get_pdf_info_plain_witness :
  fst (get_pdf_info demo_env (py "in/a.pdf") [])
  = Ok (make_info (VInt 2) (VStr (py "2.5 MB")) (VStr (py "Report"))
          (VStr (py "Desconocido")) (VBool true) (VBool true)).
Proof.
  rewrite (get_pdf_info_plain demo_env (py "in/a.pdf")
             [(py " ", []); (py "Hello", [7%N])]
             (<["title"%string := VStr (py "Report")]> ∅) (py "2.5 MB") []).
  - reflexivity.
  - reflexivity.
  - vm_compute. reflexivity.
Defined.

(** X7: [get_pdf_info] reads the first three pages only: two PDFs with the
    same metadata, the same number of pages and the same first three pages
    give the same result, whatever their other pages do. *)
Theorem get_pdf_info_first_three (E : Env) (pdf_path : str) (doc doc' : Doc)
    (out : list message) :
  doc_metadata doc = doc_metadata doc' ->
  length (doc_pages doc) = length (doc_pages doc') ->
  firstn 3 (doc_pages doc) = firstn 3 (doc_pages doc') ->
  get_pdf_info (with_fitz_open E (fun _ => Returns doc)) pdf_path out
  = get_pdf_info (with_fitz_open E (fun _ => Returns doc')) pdf_path out.
Proof.
  intros Hmeta Hlen Hfirst.
  unfold get_pdf_info, try_except, lift, get_pdf_info_try.
  cbn [fitz_open with_fitz_open call bindR].
  rewrite !first_pages_firstn, Hmeta, Hfirst. unfold len. rewrite Hlen.
  reflexivity.
Qed.

Lemma get_pdf_info_first_three_witness :
  get_pdf_info (with_fitz_open demo_env (fun _ => Returns
     {| doc_pages := doc_pages demo_doc ++ doc_pages demo_doc
                       ++ [ {| get_text := Throws RuntimeError;
                               get_images := Throws RuntimeError |} ];
        doc_metadata := doc_metadata demo_doc |})) (py "in/a.pdf") []
  = get_pdf_info (with_fitz_open demo_env (fun _ => Returns
     {| doc_pages := doc_pages demo_doc ++ doc_pages demo_doc
                       ++ [ {| get_text := Returns (py "last");
                               get_images := Returns [] |} ];
        doc_metadata := doc_metadata demo_doc |})) (py "in/a.pdf") [].
Proof.
  apply get_pdf_info_first_three; reflexivity.
Defined.

(** X8: whenever [get_pdf_info] returns, and whether the PDF could be read
    or not, the dict has the same six keys, [pages] is a number that is not
    negative and [has_text] and [has_images] are booleans. *)
Theorem get_pdf_info_keys (E : Env) (pdf_path : str) (out : list message)
    (info : gmap string pyvalue) :
  fst (get_pdf_info E pdf_path out) = Ok info ->
  dom info = info_keys
  /\ (exists n, info !! "pages"%string = Some (VInt n) /\ 0 <= n)
  /\ (exists b, info !! "has_text"%string = Some (VBool b))
  /\ (exists b, info !! "has_images"%string = Some (VBool b)).
Proof.
  unfold get_pdf_info, try_except, lift, bindM, print, ret.
  destruct (get_pdf_info_try E pdf_path) as [info'|[e|code]] eqn:Htry; cbn [fst].
  - intros [= ->].
    destruct (get_pdf_info_try_shape _ _ _ Htry) as (doc & size & md & t & i & _ & _ & _ & _ & _ & ->).
    split; [apply make_info_keys|]. unfold make_info.
    split; [exists (len (doc_pages doc)); split; [by simplify_map_eq | unfold len; lia]|].
    split; eexists; by simplify_map_eq.
  - destruct (get_file_size E (PStr pdf_path)) as [size|r]; cbn [fst]; [|discriminate].
    intros [= <-]. split; [apply error_info_keys|]. unfold error_info.
    split; [exists 0; split; [by simplify_map_eq | lia]|].
    split; eexists; by simplify_map_eq.
  - discriminate.
Qed.

Lemma get_pdf_info_keys_witness :
  dom (error_info (py "Desconocido")) = info_keys.
Proof.
  apply (get_pdf_info_keys demo_env (py "in/b.pdf") []). vm_compute. reflexivity.
Defined.

(** ** [generate_output_filename], again *)

Lemma all_sep_Forall (s : str) :
  posixpath.all_sep s = true <-> Forall (eq slash) s.
Proof.
  unfold posixpath.all_sep. rewrite forallb_forall, List.Forall_forall.
  split; intros H x Hx.
  - symmetry. apply N.eqb_eq. exact (H x Hx).
  - apply N.eqb_eq. symmetry. exact (H x Hx).
Qed.

(** A string is cut at the last occurrence of a character in one way. *)
Lemma last_split_unique (c : N) (a b a' b' : str) :
  a ++ c :: b = a' ++ c :: b' -> ~ In c b -> ~ In c b' -> a = a' /\ b = b'.
Proof.
  revert a'; induction a as [|x a IH]; intros a' Heq Hb Hb'.
  - destruct a' as [|y a']; cbn in Heq.
    + injection Heq as ->. split; reflexivity.
    + injection Heq as -> ->. exfalso. apply Hb, in_or_app. right; left; reflexivity.
  - destruct a' as [|y a']; cbn in Heq.
    + injection Heq as -> <-. exfalso. apply Hb', in_or_app. right; left; reflexivity.
    + injection Heq as -> Heq. destruct (IH _ Heq Hb Hb') as [-> ->].
      split; reflexivity.
Qed.

(** The first component of [splitext] is the stem of a file name. *)
Lemma splitext_stem_of (name : str) :
  ~ In slash name -> stem_of name (fst (posixpath.splitext name)).
Proof.
  intros Hslash. unfold posixpath.splitext.
  rewrite (posixpath_facts.rfind_absent posixpath.sep name Hslash).
  destruct (posixpath_facts.rfind_cases posixpath.extsep name)
    as [[Hnodot ->] | (s & ext & -> & Hext & ->)].
  - cbn [fst Z.ltb Z.compare andb]. right. split; [reflexivity|].
    intros s ext -> _. exfalso. apply Hnodot, in_or_app. right; left; reflexivity.
  - assert (Hlt : (-1 <? len s) = true) by (apply Z.ltb_lt; unfold len; lia).
    rewrite Hlt, posixpath_facts.slice_to_app. cbn [andb].
    change (slice_from (-1 + 1) s) with s.
    destruct (existsb (fun c => negb (N.eqb c posixpath.extsep)) s) eqn:Hs;
      cbn [fst].
    + left. exists ext. split; [reflexivity|]. split; [exact Hext|].
      apply existsb_exists in Hs as (x & Hx & Hne). exists x. split; [exact Hx|].
      intros ->. cbn in Hne. discriminate.
    + right. split; [reflexivity|]. intros s' ext' Heq Hext' (x & Hx & Hne).
      destruct (last_split_unique _ _ _ _ _ Heq Hext Hext') as [<- _].
      assert (Htrue : existsb (fun c => negb (N.eqb c posixpath.extsep)) s = true).
      { apply existsb_exists. exists x. split; [exact Hx|].
        apply negb_true_iff, N.eqb_neq. exact Hne. }
      congruence.
Qed.

(** [dirname] is the directory of the path. *)
Lemma dirname_directory_of (input_path : str) :
  exists head name,
    input_path = head ++ name /\ ~ In slash name
    /\ (head = [] \/ exists h, head = h ++ [slash])
    /\ posixpath.basename input_path = name
    /\ directory_of head (posixpath.dirname input_path).
Proof.
  destruct (posixpath_facts.rfind_cases posixpath.sep input_path)
    as [[Hno _] | (a & b & -> & Hb & _)].
  - exists [], input_path.
    destruct (posixpath_facts.split_no_sep input_path Hno) as [-> ->].
    repeat split; [exact Hno | left; reflexivity |].
    left. split; [constructor | reflexivity].
  - exists (a ++ [slash]), b.
    destruct (posixpath_facts.split_at_last_sep a b Hb) as [Hhead Hbase].
    rewrite <- app_assoc. repeat split; [exact Hb | right; eauto | exact Hbase |].
    unfold posixpath.dirname. change (a ++ [slash] ++ b) with (a ++ posixpath.sep :: b).
    rewrite Hhead. change [posixpath.sep] with [slash].
    assert (Hne : posixpath.nonempty (a ++ [slash]) = true) by (destruct a; reflexivity).
    rewrite Hne. cbn [andb].
    destruct (posixpath.all_sep (a ++ [slash])) eqn:Hall; cbn [negb].
    + left. split; [apply all_sep_Forall, Hall | reflexivity].
    + right.
      destruct (rstrip_by_split posixpath.is_sep (a ++ [slash]))
        as (slashes & Hsplit & Hslashes).
      destruct (exists_last (l := rstrip_by posixpath.is_sep (a ++ [slash])))
        as (d & x & Hdir).
      { intros Hnil. rewrite Hnil in Hsplit. cbn in Hsplit.
        rewrite Hsplit in Hall. unfold posixpath.all_sep in Hall. congruence. }
      exists slashes, d, x.
      assert (Hx : x <> slash).
      { intros ->. pose proof (rstrip_by_last _ _ _ _ Hdir) as H. discriminate. }
      repeat split.
      * exact Hdir.
      * exact Hx.
      * exact Hsplit.
      * intros ->. rewrite app_nil_r, Hdir in Hsplit.
        apply app_inj_tail in Hsplit as [_ Heq]. congruence.
      * apply all_sep_Forall, Hslashes.
Qed.

(** [join] places a file name in a directory that [dirname] gave. *)
Lemma join_placed_in (dir file : str) :
  posixpath.dir_shape dir -> ~ In slash file ->
  placed_in dir file (posixpath.join dir file).
Proof.
  intros Hshape Hfile. unfold posixpath.join.
  assert (Hstart : startswith file [posixpath.sep] = false).
  { destruct file as [|c file]; [reflexivity|]. cbn.
    destruct (N.eqb_spec c posixpath.sep) as [->|]; [|reflexivity].
    exfalso. apply Hfile. left; reflexivity. }
  rewrite Hstart. destruct Hshape as [|d Hall|d x Hx].
  - cbn. left. split; [constructor | reflexivity].
  - assert (Hne : posixpath.nonempty (d ++ [posixpath.sep]) = true)
      by (destruct d; reflexivity).
    rewrite Hne, posixpath_facts.endswith_snoc, N.eqb_refl. cbn [negb orb].
    left. split; [apply all_sep_Forall, Hall | reflexivity].
  - assert (Hne : posixpath.nonempty (d ++ [x]) = true) by (destruct d; reflexivity).
    rewrite Hne, posixpath_facts.endswith_snoc.
    change (N.eqb x posixpath.sep) with (posixpath.is_sep x). rewrite Hx.
    cbn [negb orb]. right. split; [|reflexivity].
    intros Hall. apply Forall_app in Hall as [_ Hall].
    apply Forall_inv in Hall. subst x. discriminate.
Qed.

Lemma first_other_unique (c : N) (l1 l2 r1 r2 : str) (x1 x2 : N) :
  l1 ++ x1 :: r1 = l2 ++ x2 :: r2 ->
  Forall (eq c) l1 -> Forall (eq c) l2 -> x1 <> c -> x2 <> c ->
  l1 = l2 /\ x1 = x2 /\ r1 = r2.
Proof.
  revert l2; induction l1 as [|y l1 IH]; intros l2 Heq H1 H2 Hx1 Hx2.
  - destruct l2 as [|z l2]; cbn in Heq.
    + injection Heq as -> ->. repeat split.
    + injection Heq as -> _. apply Forall_inv in H2. congruence.
  - destruct l2 as [|z l2]; cbn in Heq.
    + injection Heq as <- _. apply Forall_inv in H1. congruence.
    + injection Heq as -> Heq.
      apply Forall_inv_tail in H1. apply Forall_inv_tail in H2.
      destruct (IH _ Heq H1 H2 Hx1 Hx2) as (-> & -> & ->). repeat split.
Qed.

(** The directory, the stem, the place of a file in a directory and the cut
    of a path after its last slash are each determined. *)
Lemma directory_of_unique (head dir dir' : str) :
  directory_of head dir -> directory_of head dir' -> dir = dir'.
Proof.
  intros [[Hall ->] | (s & d & x & -> & Hx & Hhead & Hs & Hslashes)]
         [[Hall' ->] | (s' & d' & x' & -> & Hx' & Hhead' & Hs' & Hslashes')].
  - reflexivity.
  - exfalso. rewrite Hhead' in Hall.
    apply Forall_app in Hall as [Hall _]. apply Forall_app in Hall as [_ Hall].
    apply Forall_inv in Hall. congruence.
  - exfalso. rewrite Hhead in Hall'.
    apply Forall_app in Hall' as [Hall' _]. apply Forall_app in Hall' as [_ Hall'].
    apply Forall_inv in Hall'. congruence.
  - rewrite Hhead in Hhead'. apply (f_equal (@rev N)) in Hhead'.
    rewrite !rev_app_distr in Hhead'. cbn [rev app] in Hhead'.
    rewrite <- ?app_assoc in Hhead'. cbn [app] in Hhead'.
    destruct (first_other_unique slash _ _ _ _ _ _ Hhead') as (_ & -> & Hd);
      try assumption.
    + apply Forall_rev, Hslashes.
    + apply Forall_rev, Hslashes'.
    + apply (f_equal (@rev N)) in Hd. rewrite !rev_involutive in Hd.
      rewrite Hd. reflexivity.
Qed.

Lemma stem_of_unique (name stem stem' : str) :
  stem_of name stem -> stem_of name stem' -> stem = stem'.
Proof.
  intros [(ext & Hname & Hext & Hother) | [-> Hnone]]
         [(ext' & Hname' & Hext' & Hother') | [-> Hnone']].
  - rewrite Hname in Hname'.
    destruct (last_split_unique _ _ _ _ _ Hname' Hext Hext') as [-> _].
    reflexivity.
  - exfalso. exact (Hnone' _ _ Hname Hext Hother).
  - exfalso. exact (Hnone _ _ Hname' Hext' Hother').
  - reflexivity.
Qed.

Lemma placed_in_unique (dir file path path' : str) :
  placed_in dir file path -> placed_in dir file path' -> path = path'.
Proof. intros [[H ->] | [H ->]] [[H' ->] | [H' ->]]; tauto || reflexivity. Qed.

Lemma cut_unique (head name head' name' : str) :
  head ++ name = head' ++ name' ->
  ~ In slash name -> ~ In slash name' ->
  (head = [] \/ exists h, head = h ++ [slash]) ->
  (head' = [] \/ exists h, head' = h ++ [slash]) ->
  head = head' /\ name = name'.
Proof.
  intros Heq Hname Hname' [-> | [h ->]] [-> | [h' ->]].
  - split; [reflexivity | exact Heq].
  - exfalso. cbn in Heq. rewrite <- app_assoc in Heq. subst name.
    apply Hname, in_or_app. right; left; reflexivity.
  - exfalso. cbn in Heq. rewrite <- app_assoc in Heq. subst name'.
    apply Hname', in_or_app. right; left; reflexivity.
  - rewrite <- !app_assoc in Heq. cbn [app] in Heq.
    destruct (last_split_unique _ _ _ _ _ Heq Hname Hname') as [-> ->].
    split; reflexivity.
Qed.

(** C5: with no output path, the result is the file whose name is the
    input's stem followed by [.docx], in the input's directory, and no other
    path is.  The input is cut after its last slash in [head] and [name]; the
    directory is [head] without the slashes it ends with (or [head] when it
    is nothing but slashes), the stem is [name] without the extension that
    starts at its last dot (or [name] when no character other than a dot
    comes before that dot).  An output path that is given and not empty is
    returned as it is. *)
Theorem generate_output_filename_parts (input_path : str) :
  (exists head name dir stem,
     input_path = head ++ name
     /\ ~ In slash name
     /\ (head = [] \/ exists h, head = h ++ [slash])
     /\ directory_of head dir
     /\ stem_of name stem
     /\ placed_in dir (stem ++ py ".docx")
          (generate_output_filename input_path None))
  /\ (forall head name dir stem path,
        input_path = head ++ name ->
        ~ In slash name ->
        (head = [] \/ exists h, head = h ++ [slash]) ->
        directory_of head dir ->
        stem_of name stem ->
        placed_in dir (stem ++ py ".docx") path ->
        generate_output_filename input_path None = path)
  /\ (forall c o, generate_output_filename input_path (Some (c :: o)) = c :: o).
Proof.
  assert (Hparts : exists head name dir stem,
            input_path = head ++ name
            /\ ~ In slash name
            /\ (head = [] \/ exists h, head = h ++ [slash])
            /\ directory_of head dir
            /\ stem_of name stem
            /\ placed_in dir (stem ++ py ".docx")
                 (generate_output_filename input_path None)).
  { destruct (dirname_directory_of input_path)
      as (head & name & Hcut & Hname & Hhead & Hbase & Hdir).
    exists head, name, (posixpath.dirname input_path),
      (fst (posixpath.splitext name)).
    repeat split; try assumption.
    - apply splitext_stem_of, Hname.
    - unfold generate_output_filename. rewrite Hbase.
      apply join_placed_in; [apply posixpath_facts.dirname_shape|].
      intros H. apply in_app_or in H as [H|H].
      + apply posixpath_facts.splitext_stem_In in H. exact (Hname H).
      + vm_compute in H. intuition discriminate. }
  split; [exact Hparts|]. split; [|reflexivity].
  intros head name dir stem path Hcut Hname Hhead Hdir Hstem Hplaced.
  destruct Hparts as (head' & name' & dir' & stem' & Hcut' & Hname' & Hhead'
                      & Hdir' & Hstem' & Hplaced').
  rewrite Hcut in Hcut'.
  destruct (cut_unique _ _ _ _ Hcut' Hname Hname' Hhead Hhead') as [<- <-].
  rewrite (directory_of_unique _ _ _ Hdir' Hdir) in Hplaced'.
  rewrite (stem_of_unique _ _ _ Hstem' Hstem) in Hplaced'.
  exact (placed_in_unique _ _ _ _ Hplaced' Hplaced).
Qed.

Lemma generate_output_filename_parts_witness :
  generate_output_filename (py "dir/sub//report.final.pdf") None
  = py "dir/sub/report.final.docx".
Proof.
  destruct (generate_output_filename_parts (py "dir/sub//report.final.pdf"))
    as (_ & H & _).
  apply (H (py "dir/sub//") (py "report.final.pdf") (py "dir/sub")
           (py "report.final")).
  - reflexivity.
  - vm_compute. intuition discriminate.
  - right. exists (py "dir/sub/"). reflexivity.
  - right. exists (py "//"), (py "dir/su"), 98%N.
    repeat split; try reflexivity; try discriminate.
    repeat constructor.
  - left. exists (py "pdf").
    split; [reflexivity|]. split; [vm_compute; intuition discriminate|].
    exists 114%N. split; [vm_compute; tauto | discriminate].
  - right. split; [|reflexivity].
    intros H'. apply Forall_inv in H'. discriminate.
Defined.

Lemma basename_is_suffix (p : str) : exists prefix, p = prefix ++ posixpath.basename p.
Proof.
  unfold posixpath.basename, slice_from.
  eexists. symmetry. apply firstn_skipn.
Qed.

(** [splitext] takes [.docx] off a name whose stem has a character that is
    not a dot. *)
Lemma splitext_docx (stem : str) :
  ~ In posixpath.sep stem ->
  existsb (fun c => negb (N.eqb c posixpath.extsep)) stem = true ->
  posixpath.splitext (stem ++ py ".docx") = (stem, py ".docx").
Proof.
  intros Hsep Hdot. unfold posixpath.splitext.
  assert (Hs : posixpath.rfind posixpath.sep (stem ++ py ".docx") = -1).
  { apply posixpath_facts.rfind_absent. intros H. apply in_app_or in H as [H|H].
    - exact (Hsep H).
    - vm_compute in H. intuition discriminate. }
  assert (Hd : posixpath.rfind posixpath.extsep (stem ++ py ".docx") = len stem).
  { change (py ".docx") with (posixpath.extsep :: py "docx").
    apply posixpath_facts.rfind_last. intros H. vm_compute in H.
    intuition discriminate. }
  rewrite Hs, Hd.
  assert (Hlt : (-1 <? len stem) = true) by (apply Z.ltb_lt; unfold len; lia).
  rewrite Hlt, posixpath_facts.slice_to_app, posixpath_facts.slice_from_app.
  change (slice_from (-1 + 1) stem) with stem. rewrite Hdot. reflexivity.
Qed.

(** X9: the default output name always ends with [.docx]; and when the
    input's stem has a character that is not a dot, the default output name
    of the output is the output itself: its stem is the input's stem and its
    extension is [.docx]. *)
Theorem generate_output_filename_idempotent (input_path : str) :
  let stem := fst (posixpath.splitext (posixpath.basename input_path)) in
  let result := generate_output_filename input_path None in
  endswith result (py ".docx") = true
  /\ (existsb (fun c => negb (N.eqb c posixpath.extsep)) stem = true ->
      posixpath.splitext (posixpath.basename result) = (stem, py ".docx")
      /\ generate_output_filename result None = result).
Proof.
  cbv zeta.
  set (stem := fst (posixpath.splitext (posixpath.basename input_path))).
  assert (Hstem : ~ In posixpath.sep stem).
  { intros H. apply posixpath_facts.splitext_stem_In in H.
    exact (posixpath_facts.basename_no_sep _ H). }
  assert (Hname : ~ In posixpath.sep (stem ++ py ".docx")).
  { intros H. apply in_app_or in H as [H|H]; [exact (Hstem H)|].
    vm_compute in H. intuition discriminate. }
  destruct (posixpath_facts.dirname_basename_join
              (posixpath.dirname input_path) _
              (posixpath_facts.dirname_shape input_path) Hname) as [Hdir Hbase].
  change (posixpath.join (posixpath.dirname input_path) (stem ++ py ".docx"))
    with (generate_output_filename input_path None) in Hdir, Hbase.
  split.
  - destruct (basename_is_suffix (generate_output_filename input_path None))
      as [prefix Hp].
    rewrite Hbase, app_assoc in Hp. apply endswith_suffix. eauto.
  - intros Hdot. rewrite Hbase, (splitext_docx stem Hstem Hdot).
    split; [reflexivity|].
    unfold generate_output_filename at 1.
    rewrite Hdir, Hbase, (splitext_docx stem Hstem Hdot). reflexivity.
Qed.

Lemma generate_output_filename_idempotent_witness :
  generate_output_filename (py "dir/report.final.docx") None
  = py "dir/report.final.docx".
Proof.
  destruct (generate_output_filename_idempotent (py "dir/report.final.pdf"))
    as [_ H].
  destruct H as [_ H]; [reflexivity|]. exact H.
Defined.

(** Without such a character the name grows: a trailing slash gives the file
    name [.docx], whose stem is [.docx]. *)
Example generate_output_filename_twice :
  generate_output_filename (generate_output_filename (py "a/b/") None) None
  = py "a/b/.docx.docx".
Proof. vm_compute. reflexivity. Qed.

(** ** The commands, again *)

(** X10: [convert] never looks at the output file, the quality, the file
    size, the converter or [mkdir]: two runs in worlds that agree on the
    [Path] of the input file and on whether it exists, with the same
    verbosity, end the same way with the same console. *)
Theorem convert_depends_on_input_only (E E' : Env) (input_file : str)
    (output_file output_file' : str) (cfg cfg' : config) (out : list message) :
  Path E input_file = Path E' input_file ->
  os_path_exists E (PPath (Path E input_file))
    = os_path_exists E' (PPath (Path E' input_file)) ->
  verbose cfg = verbose cfg' ->
  convert E input_file output_file cfg out
  = convert E' input_file output_file' cfg' out.
Proof.
  intros HPath Hexists Hverbose. rewrite !convert_run.
  rewrite <- Hexists, <- HPath, <- Hverbose. reflexivity.
Qed.

Lemma convert_depends_on_input_only_witness :
  convert demo_env (py "in/a.pdf") (py "out/a.docx") demo_config []
  = convert (with_path_mkdir demo_env (fun _ => Throws OSError)) (py "in/a.pdf")
      (py "elsewhere/b.docx")
      {| quality := "low"; preserve_layout := false; extract_images := false;
         extract_tables := false; verbose := false |} [].
Proof.
  apply convert_depends_on_input_only; reflexivity.
Defined.

Lemma blocks_lookup (E : Env) (total : Z) (cs : list (str * outcome bool)) :
  forall (i : Z) (k : nat) (pdf_file : str) (r : outcome bool),
    cs !! k = Some (pdf_file, r) ->
    blocks E total i cs !! (2 * k)%nat
      = Some (MsgProcessing (i + Z.of_nat k) total (path_name E pdf_file))
    /\ blocks E total i cs !! (2 * k + 1)%nat = Some (result_message r).
Proof.
  induction cs as [|[f0 r0] cs IH]; intros i k pdf_file r Hk; [discriminate|].
  destruct k as [|k].
  - injection Hk as -> ->. cbn. rewrite Z.add_0_r. split; reflexivity.
  - cbn in Hk. destruct (IH (i + 1) k pdf_file r Hk) as [H1 H2].
    replace (2 * S k)%nat with (S (S (2 * k))) by lia.
    replace (S (S (2 * k)) + 1)%nat with (S (S (2 * k + 1))) by lia.
    cbn [blocks lookup list_lookup]. 
    replace (i + Z.of_nat (S k)) with (i + 1 + Z.of_nat k) by lia.
    split; assumption.
Qed.

Lemma blocks_length (E : Env) (total : Z) (cs : list (str * outcome bool)) :
  forall i, length (blocks E total i cs) = (2 * length cs)%nat.
Proof.
  induction cs as [|[f r] cs IH]; intros i; cbn; [reflexivity|].
  rewrite IH. lia.
Qed.

Lemma conversions_lookup (E : Env) (output_path : str) (pdf_files : list str) :
  forall (c : converter E) (k : nat) (pdf_file : str),
    pdf_files !! k = Some pdf_file ->
    exists r, conversions E output_path pdf_files c !! k = Some (pdf_file, r).
Proof.
  induction pdf_files as [|f rest IH]; intros c k pdf_file Hk; [discriminate|].
  cbn [conversions]. destruct (converter_convert E _ _ _) as [r c'].
  destruct k as [|k].
  - injection Hk as ->. exists r. reflexivity.
  - cbn in Hk. cbn. apply IH, Hk.
Qed.

(** X11: the loop prints two lines per file and nothing else, and the file
    at position [k] of the list (from 0) is announced by the line at
    position [2 k] with the number [i + k], so with [k + 1] of the total in
    [batch], where the numbers start at 1. *)
Theorem batch_loop_numbering (E : Env) (output_path : str) (total i : Z)
    (pdf_files : list str) (st : batch_state E) (out : list message)
    (k : nat) (pdf_file : str) :
  pdf_files !! k = Some pdf_file ->
  let console := snd (batch_loop E output_path total i pdf_files st out) in
  length console = (length out + 2 * length pdf_files)%nat
  /\ console !! (length out + 2 * k)%nat
     = Some (MsgProcessing (i + Z.of_nat k) total (path_name E pdf_file))
  /\ exists r, console !! (length out + 2 * k + 1)%nat = Some (result_message r).
Proof.
  intros Hk. cbv zeta. rewrite batch_loop_run. cbv beta iota zeta. cbn [snd].
  destruct (conversions_lookup E output_path pdf_files (the_converter E st) k
              pdf_file Hk) as [r Hr].
  destruct (blocks_lookup E total _ i k pdf_file r Hr) as [H1 H2].
  repeat split.
  - rewrite length_app, blocks_length, conversions_length. reflexivity.
  - rewrite lookup_app_r by lia.
    replace (length out + 2 * k - length out)%nat with (2 * k)%nat by lia.
    exact H1.
  - exists r. rewrite lookup_app_r by lia.
    replace (length out + 2 * k + 1 - length out)%nat with (2 * k + 1)%nat by lia.
    exact H2.
Qed.

Lemma batch_loop_numbering_witness :
  snd (batch_loop demo_env (py "out") 3 1
         [py "in/a.pdf"; py "in/b.pdf"; py "in/c.pdf"]
         (Build_batch_state demo_env 0 0 0%nat) []) !! 4%nat
  = Some (MsgProcessing 3 3 (py "c.pdf")).
Proof.
  destruct (batch_loop_numbering demo_env (py "out") 3 1
              [py "in/a.pdf"; py "in/b.pdf"; py "in/c.pdf"]
              (Build_batch_state demo_env 0 0 0%nat) [] 2 (py "in/c.pdf") eq_refl)
    as (_ & H & _).
  exact H.
Defined.

(** X12: when PDF files are found, the output directory can be made and the
    converter can be built, [batch] prints its header, the number of files,
    the block of every file in order and a summary whose two counts add up
    to the number of files; it returns, so the exit code is 0, however many
    conversions failed or raised. *)
Theorem batch_run (E : Env) (input_dir output_dir : str) (cfg : config)
    (out : list message) (pdf_file : str) (rest : list str) (c : converter E) :
  path_glob_pdf E (Path E input_dir) = Returns (pdf_file :: rest) ->
  path_mkdir E (Path E output_dir) = Returns tt ->
  converter_new E cfg = Returns c ->
  let pdf_files := pdf_file :: rest in
  let cs := conversions E (Path E output_dir) pdf_files c in
  batch E input_dir output_dir cfg out
  = (Ok tt,
     out ++ [MsgBatchHeader;
             MsgFound (len pdf_files) (path_absolute E (Path E output_dir))]
         ++ blocks E (len pdf_files) 1 cs
         ++ [MsgSummary (len pdf_files) (successes cs) (failures cs)])
  /\ successes cs + failures cs = len pdf_files
  /\ exit_code (fst (batch E input_dir output_dir cfg out)) = 0.
Proof.
  intros Hglob Hmkdir Hnew. cbv zeta.
  assert (Hrun : batch E input_dir output_dir cfg out
    = (Ok tt,
       out ++ [MsgBatchHeader;
               MsgFound (len (pdf_file :: rest)) (path_absolute E (Path E output_dir))]
           ++ blocks E (len (pdf_file :: rest)) 1
                (conversions E (Path E output_dir) (pdf_file :: rest) c)
           ++ [MsgSummary (len (pdf_file :: rest))
                 (successes (conversions E (Path E output_dir) (pdf_file :: rest) c))
                 (failures (conversions E (Path E output_dir) (pdf_file :: rest) c))])).
  { unfold batch, try_except, batch_try, bindM, lift, print, call.
    rewrite Hglob. cbv beta iota. rewrite Hmkdir. cbv beta iota.
    rewrite Hnew. cbv beta iota. rewrite batch_loop_run. cbv beta iota zeta.
    cbn [successful failed the_converter]. rewrite !Z.add_0_l.
    rewrite <- !app_assoc. reflexivity. }
  rewrite Hrun. repeat split.
  rewrite successes_failures. unfold len. rewrite conversions_length. reflexivity.
Qed.

Lemma batch_run_witness :
  batch demo_env (py "in") (py "out") demo_config []
  = (Ok tt,
     [MsgBatchHeader; MsgFound 3 (py "/work/out");
      MsgProcessing 1 3 (py "a.pdf"); MsgFileSuccess;
      MsgProcessing 2 3 (py "b.pdf"); MsgFileFailed;
      MsgProcessing 3 3 (py "c.pdf"); MsgFileError RuntimeError;
      MsgSummary 3 1 2]).
Proof.
  destruct (batch_run demo_env (py "in") (py "out") demo_config []
              (py "in/a.pdf") [py "in/b.pdf"; py "in/c.pdf"] 0%nat
              eq_refl eq_refl eq_refl) as [H _].
  rewrite H. vm_compute. reflexivity.
Defined.

(** X13: [batch] converts nothing when there is nothing to convert or when
    the preparation fails.  With no PDF file it says so and returns, without
    making the output directory or building a converter; when listing the
    files, making the directory or building the converter raises, it prints
    the error, the traceback if verbose, and exits with 1.  In no case is a
    file announced. *)
Theorem batch_stops_early (E : Env) (input_dir output_dir : str) (cfg : config)
    (out : list message) :
  let trace e := MsgError e :: (if verbose cfg then [MsgTraceback e] else []) in
  let found files := MsgFound (len files) (path_absolute E (Path E output_dir)) in
  (path_glob_pdf E (Path E input_dir) = Returns [] ->
   batch E input_dir output_dir cfg out
   = (Ok tt, out ++ [MsgBatchHeader; MsgNoPdfFound input_dir]))
  /\ (forall e,
        path_glob_pdf E (Path E input_dir) = Throws e ->
        batch E input_dir output_dir cfg out
        = (Raise (SystemExit 1), out ++ MsgBatchHeader :: trace e))
  /\ (forall f files e,
        path_glob_pdf E (Path E input_dir) = Returns (f :: files) ->
        path_mkdir E (Path E output_dir) = Throws e ->
        batch E input_dir output_dir cfg out
        = (Raise (SystemExit 1),
           out ++ MsgBatchHeader :: found (f :: files) :: trace e))
  /\ (forall f files e,
        path_glob_pdf E (Path E input_dir) = Returns (f :: files) ->
        path_mkdir E (Path E output_dir) = Returns tt ->
        converter_new E cfg = Throws e ->
        batch E input_dir output_dir cfg out
        = (Raise (SystemExit 1),
           out ++ MsgBatchHeader :: found (f :: files) :: trace e)).
Proof.
  cbv zeta. repeat split.
  - intros Hglob. unfold batch, try_except, batch_try, bindM, lift, print, call.
    rewrite Hglob. cbv beta iota. rewrite <- app_assoc. reflexivity.
  - intros e Hglob. unfold batch, try_except, batch_try, bindM, lift, print, call.
    rewrite Hglob. cbv beta iota. rewrite command_handler_run, <- app_assoc.
    reflexivity.
  - intros f files e Hglob Hmkdir.
    unfold batch, try_except, batch_try, bindM, lift, print, call.
    rewrite Hglob. cbv beta iota. rewrite Hmkdir. cbv beta iota.
    rewrite command_handler_run, <- !app_assoc. reflexivity.
  - intros f files e Hglob Hmkdir Hnew.
    unfold batch, try_except, batch_try, bindM, lift, print, call.
    rewrite Hglob. cbv beta iota. rewrite Hmkdir. cbv beta iota.
    rewrite Hnew. cbv beta iota.
    rewrite command_handler_run, <- !app_assoc. reflexivity.
Qed.

Lemma batch_stops_early_witness :
  batch demo_env (py "empty") (py "out") demo_config []
  = (Ok tt, [MsgBatchHeader; MsgNoPdfFound (py "empty")])
  /\ batch (with_path_mkdir demo_env (fun _ => Throws OSError))
       (py "in") (py "out") demo_config []
     = (Raise (SystemExit 1),
        [MsgBatchHeader; MsgFound 3 (py "/work/out"); MsgError OSError]).
Proof.
  split.
  - apply (batch_stops_early demo_env (py "empty") (py "out") demo_config []).
    reflexivity.
  - destruct (batch_stops_early (with_path_mkdir demo_env (fun _ => Throws OSError))
                (py "in") (py "out") demo_config []) as (_ & _ & H & _).
    rewrite (H (py "in/a.pdf") [py "in/b.pdf"; py "in/c.pdf"] OSError eq_refl eq_refl).
    reflexivity.
Defined.

(** ** [create_output_directory] *)

(** X14: [create_output_directory] never raises.  It returns [False]
    exactly when the directory part of the path is not empty, does not
    exist, and [os.makedirs] raised; for a path without a slash it returns
    [True] and prints nothing, whatever [os.makedirs] would do. *)
Theorem create_output_directory_result (E : Env) (os_makedirs : str -> outcome unit)
    (output_path : str) (out : list helper_message) :
  let output_dir := posixpath.dirname output_path in
  (exists b out',
     create_output_directory E os_makedirs output_path out = (Ok b, out')
     /\ (b = false <->
         posixpath.nonempty output_dir = true
         /\ os_path_exists E (PStr output_dir) = false
         /\ exists e, os_makedirs output_dir = Throws e))
  /\ (~ In posixpath.sep output_path ->
      create_output_directory E os_makedirs output_path out = (Ok true, out)).
Proof.
  cbv zeta. split.
  - unfold create_output_directory, try_exceptH, bindH, liftH, printH, retH, call.
    destruct (posixpath.nonempty (posixpath.dirname output_path)); cbn [andb].
    + destruct (os_path_exists E (PStr (posixpath.dirname output_path)));
        cbn [negb].
      * eexists _, _. split; [reflexivity|]. split; [discriminate|].
        intros (_ & H & _); discriminate.
      * destruct (os_makedirs (posixpath.dirname output_path)) as [[]|e].
        -- eexists _, _. split; [reflexivity|]. split; [discriminate|].
           intros (_ & _ & e & H); discriminate.
        -- eexists _, _. split; [reflexivity|]. split; [|reflexivity].
           intros _. eauto.
    + eexists _, _. split; [reflexivity|]. split; [discriminate|].
      intros (H & _); discriminate.
  - intros Hsep. unfold create_output_directory.
    destruct (posixpath_facts.split_no_sep output_path Hsep) as [-> _].
    reflexivity.
Qed.

(** ** [get_pdf_files] *)

Lemma str_leb_total (a b : str) : str_leb a b = true \/ str_leb b a = true.
Proof.
  revert b; induction a as [|x a IH]; intros [|y b]; cbn; auto.
  destruct (N.ltb_spec x y), (N.ltb_spec y x); auto; lia.
Qed.

Lemma str_leb_trans (a b c : str) :
  str_leb a b = true -> str_leb b c = true -> str_leb a c = true.
Proof.
  revert b c; induction a as [|x a IH]; intros [|y b] [|z c]; cbn;
    try reflexivity; try discriminate.
  destruct (N.ltb_spec x y), (N.ltb_spec y x), (N.ltb_spec y z),
    (N.ltb_spec z y), (N.ltb_spec x z), (N.ltb_spec z x);
    try reflexivity; try discriminate; try lia.
  apply IH.
Qed.

Lemma str_leb_antisym (a b : str) :
  str_leb a b = true -> str_leb b a = true -> a = b.
Proof.
  revert b; induction a as [|x a IH]; intros [|y b]; cbn;
    try reflexivity; try discriminate.
  destruct (N.ltb_spec x y), (N.ltb_spec y x); try discriminate; try lia.
  intros H1 H2. f_equal; [lia | exact (IH _ H1 H2)].
Qed.

#[global] Instance str_le_total : Total str_le.
Proof. intros a b. apply str_leb_total. Qed.

#[global] Instance str_le_trans : Transitive str_le.
Proof. intros a b c. apply str_leb_trans. Qed.

#[global] Instance str_le_antisym : AntiSymm (=) str_le.
Proof. intros a b. apply str_leb_antisym. Qed.

(** The loop keeps, in the order of the listing, the names that end with
    [.pdf] once in lower case, each joined to the directory. *)
Lemma collect_pdf_filter (E : Env) (directory : str) (names : list str) :
  collect_pdf E directory names
  = map (posixpath.join directory)
        (List.filter (fun file => endswith (str_lower E file) (py ".pdf")) names).
Proof.
  unfold collect_pdf.
  enough (Hgen : forall acc,
            fold_left
              (fun pdf_files file =>
                 if endswith (str_lower E file) (py ".pdf")
                 then pdf_files ++ [posixpath.join directory file]
                 else pdf_files) names acc
            = acc ++ map (posixpath.join directory)
                       (List.filter
                          (fun file => endswith (str_lower E file) (py ".pdf"))
                          names))
    by apply (Hgen []).
  induction names as [|file names IH]; intros acc; cbn [fold_left List.filter map].
  - symmetry. apply app_nil_r.
  - rewrite IH. destruct (endswith _ _); [|reflexivity].
    rewrite <- app_assoc. reflexivity.
Qed.

(** X15: [get_pdf_files] never raises and returns a list in ascending order.
    For a directory that exists and can be listed, the list holds, each once
    per listed name, the joined paths of the names that end with [.pdf] in
    lower case, and a warning is printed exactly when there is none; for a
    directory that does not exist or cannot be listed the list is empty and
    one error is printed. *)
Theorem get_pdf_files_sorted (E : Env) (os_listdir : str -> outcome (list str))
    (directory : str) (out : list helper_message) :
  exists pdf_files printed,
    get_pdf_files E os_listdir directory out = (Ok pdf_files, out ++ printed)
    /\ StronglySorted str_le pdf_files
    /\ match os_path_exists E (PStr directory), os_listdir directory with
       | true, Returns names =>
           pdf_files ≡ₚ map (posixpath.join directory)
                          (List.filter
                             (fun file => endswith (str_lower E file) (py ".pdf"))
                             names)
           /\ printed = (if posixpath.nonempty pdf_files then []
                         else [MsgNoPdfIn directory])
       | true, Throws e => pdf_files = [] /\ printed = [MsgListError e]
       | false, _ => pdf_files = [] /\ printed = [MsgDirNotExists directory]
       end.
Proof.
  unfold get_pdf_files, try_exceptH, bindH, liftH, printH, retH, call.
  destruct (os_path_exists E (PStr directory)); cbn [negb].
  - destruct (os_listdir directory) as [names|e].
    + rewrite collect_pdf_filter.
      set (found := map _ (List.filter _ names)).
      assert (Hperm : sorted found ≡ₚ found) by apply merge_sort_Permutation.
      assert (Hempty : posixpath.nonempty (sorted found) = posixpath.nonempty found).
      { clearbody found.
        destruct (sorted found) as [|y l'], found as [|x l]; try reflexivity.
        - apply Permutation_nil_l in Hperm. discriminate.
        - apply Permutation_nil_r in Hperm. discriminate. }
      destruct (posixpath.nonempty found) eqn:Hne.
      * exists (sorted found), []. rewrite app_nil_r, Hempty.
        repeat split; [apply StronglySorted_merge_sort; apply _ | exact Hperm].
      * exists (sorted found), [MsgNoPdfIn directory]. rewrite Hempty.
        repeat split; [apply StronglySorted_merge_sort; apply _ | exact Hperm].
    + exists [], [MsgListError e]. repeat split. constructor.
  - exists [], [MsgDirNotExists directory].
    destruct (os_listdir directory); repeat split; constructor.
Qed.

(** The order is the order of the code points: upper case comes first. *)
Example get_pdf_files_values :
  fst (get_pdf_files demo_env demo_listdir (py "in") [])
  = Ok (map py ["in/A.PDF"; "in/a.pdf"; "in/b.pdf"; "in/c.pdf"]%string)
  /\ get_pdf_files demo_env demo_listdir (py "nowhere") []
     = (Ok [], [MsgDirNotExists (py "nowhere")]).
Proof. vm_compute. split; reflexivity. Qed.

(** ** [is_pdf_readable] *)

(** X16: [is_pdf_readable] never raises, and it returns [True] exactly when
    the PDF opens, has a first page, and the text of that page can be
    extracted, be it empty. *)
Theorem is_pdf_readable_result (E : Env) (pdf_path : str) :
  exists b,
    is_pdf_readable E pdf_path = Ok b
    /\ (b = true <->
        exists doc page rest text,
          fitz_open E pdf_path = Returns doc
          /\ doc_pages doc = page :: rest
          /\ get_text page = Returns text).
Proof.
  unfold is_pdf_readable, try_exceptR, call, bindR.
  destruct (fitz_open E pdf_path) as [doc|e].
  - destruct (doc_pages doc) as [|page rest] eqn:Hpages.
    + exists false. split; [reflexivity|]. split; [discriminate|].
      intros (d & p & r & t & [= <-] & H & _). congruence.
    + assert (Hlen : (0 <? len (page :: rest)) = true)
        by (apply Z.ltb_lt; unfold len; cbn [length]; lia).
      rewrite Hlen. destruct (get_text page) as [text|e] eqn:Htext.
      * exists true. split; [reflexivity|]. split; [|reflexivity].
        intros _. exists doc, page, rest, text. auto.
      * exists false. split; [reflexivity|]. split; [discriminate|].
        intros (d & p & r & t & [= <-] & H & Ht). congruence.
  - exists false. split; [reflexivity|]. split; [discriminate|].
    intros (d & p & r & t & H & _). discriminate.
Qed.

Lemma scan_text_first (page : Page) (rest : list Page) (t : bool) :
  scan_text (page :: rest) = Ok t -> exists text, get_text page = Returns text.
Proof.
  cbn [scan_text]. destruct (get_text page) as [text|e]; [eauto | discriminate].
Qed.

(** X17: whenever the [try] block of [get_pdf_info] reads a PDF without
    error, [is_pdf_readable] tells whether it has a page: it is [True] when
    the dict says [pages > 0] and [False] when it says 0. *)
Theorem is_pdf_readable_agrees (E : Env) (pdf_path : str)
    (info : gmap string pyvalue) :
  get_pdf_info_try E pdf_path = Ok info ->
  exists n,
    info !! "pages"%string = Some (VInt n)
    /\ is_pdf_readable E pdf_path = Ok (0 <? n).
Proof.
  intros Htry.
  destruct (get_pdf_info_try_shape _ _ _ Htry)
    as (doc & size & md & t & i & Hopen & _ & _ & Ht & _ & ->).
  exists (len (doc_pages doc)). split; [unfold make_info; by simplify_map_eq|].
  unfold is_pdf_readable, try_exceptR, call, bindR. rewrite Hopen.
  destruct (doc_pages doc) as [|page rest]; [reflexivity|].
  cbn [firstn] in Ht. destruct (scan_text_first _ _ _ Ht) as [text ->].
  destruct (0 <? len (page :: rest)) eqn:Hlen; [reflexivity|].
  apply Z.ltb_ge in Hlen. unfold len in Hlen. cbn [length] in Hlen. lia.
Qed.

Lemma is_pdf_readable_agrees_witness :
  is_pdf_readable demo_env (py "in/a.pdf") = Ok true.
Proof.
  destruct (is_pdf_readable_agrees demo_env (py "in/a.pdf")
              (make_info (VInt 2) (VStr (py "2.5 MB")) (VStr (py "Report"))
                 (VStr (py "Desconocido")) (VBool true) (VBool true)))
    as (n & Hn & Hr).
  - vm_compute. reflexivity.
  - rewrite Hr. vm_compute in Hn. injection Hn as <-. reflexivity.
Defined.

(** ** [print_file_info] *)

Lemma error_info_make_info (size : str) :
  error_info size
  = make_info (VInt 0) (VStr size) (VStr (py "Error al leer"))
      (VStr (py "Desconocido")) (VBool false) (VBool false).
Proof. reflexivity. Qed.

(** The dict [get_pdf_info] returns is always one [make_info] builds. *)
Lemma get_pdf_info_shape (E : Env) (pdf_path : str) (out out' : list message)
    (info : gmap string pyvalue) :
  get_pdf_info E pdf_path out = (Ok info, out') ->
  exists pages size title author t i,
    info = make_info pages (VStr size) title author (VBool t) (VBool i).
Proof.
  unfold get_pdf_info, try_except, lift, bindM, print, ret.
  destruct (get_pdf_info_try E pdf_path) as [info'|[e|code]] eqn:Htry.
  - intros [= -> _].
    destruct (get_pdf_info_try_shape _ _ _ Htry)
      as (doc & size & md & t & i & _ & _ & _ & _ & _ & ->).
    eauto 10.
  - destruct (get_file_size E (PStr pdf_path)) as [size|r]; [|discriminate].
    intros [= <- _]. rewrite error_info_make_info. eauto 10.
  - discriminate.
Qed.

(** The lines [print_file_info] prints after the header and the messages of
    [get_pdf_info], for the dict of [make_info]. *)
Lemma print_file_info_lines (E : Env) (pdf_path output_path : str)
    (out : list helper_message) (printed : list message)
    (pages size title author : pyvalue) (t i : bool) :
  get_pdf_info E pdf_path []
  = (Ok (make_info pages size title author (VBool t) (VBool i)), printed) ->
  print_file_info E pdf_path output_path true out
  = (Ok tt,
     out ++ [MsgInfoHeader pdf_path output_path] ++ map Printed printed
         ++ [MsgInfoPages pages; MsgInfoSize size]
         ++ (if ne_str title sin_titulo then [MsgInfoTitle title] else [])
         ++ [if t || i
             then MsgInfoContains ((if t then [py "texto"] else [])
                                   ++ (if i then [imagenes] else []))
             else MsgInfoNoText]).
Proof.
  intros Hinfo.
  unfold print_file_info, bindH, printH, callM, liftH, retH. cbn [negb].
  rewrite Hinfo. unfold dict_getitem, make_info.
  repeat (rewrite lookup_insert_ne by discriminate).
  rewrite lookup_insert_eq.
  repeat (rewrite lookup_insert_ne by discriminate); rewrite lookup_insert_eq.
  repeat (rewrite lookup_insert_ne by discriminate); rewrite lookup_insert_eq.
  repeat (rewrite lookup_insert_ne by discriminate); rewrite lookup_insert_eq.
  repeat (rewrite lookup_insert_ne by discriminate); rewrite lookup_insert_eq.
  destruct (ne_str title sin_titulo), t, i; cbn [truthy app orb posixpath.nonempty];
    rewrite <- ?app_assoc; reflexivity.
Qed.

(** X18: in verbose mode, whenever [get_pdf_info] returns, [print_file_info]
    returns too (no key of the dict is missing): it prints the header, what
    [get_pdf_info] printed, the pages, the size, the title unless it is
    ['Sin título'], and then either what the PDF contains or, exactly when
    it has neither text nor image, the warning. *)
Theorem print_file_info_report (E : Env) (pdf_path output_path : str)
    (out : list helper_message) (info : gmap string pyvalue)
    (printed : list message) :
  get_pdf_info E pdf_path [] = (Ok info, printed) ->
  exists pages size title (t i : bool),
    info !! "pages"%string = Some pages
    /\ info !! "size"%string = Some size
    /\ info !! "title"%string = Some title
    /\ info !! "has_text"%string = Some (VBool t)
    /\ info !! "has_images"%string = Some (VBool i)
    /\ print_file_info E pdf_path output_path true out
       = (Ok tt,
          out ++ [MsgInfoHeader pdf_path output_path] ++ map Printed printed
              ++ [MsgInfoPages pages; MsgInfoSize size]
              ++ (if ne_str title sin_titulo then [MsgInfoTitle title] else [])
              ++ [if t || i
                  then MsgInfoContains ((if t then [py "texto"] else [])
                                        ++ (if i then [imagenes] else []))
                  else MsgInfoNoText]).
Proof.
  intros Hinfo.
  destruct (get_pdf_info_shape _ _ _ _ _ Hinfo)
    as (pages & size & title & author & t & i & ->).
  exists pages, (VStr size), title, t, i.
  repeat split; try (unfold make_info; by simplify_map_eq).
  apply (print_file_info_lines E pdf_path output_path out printed _ _ _ author).
  exact Hinfo.
Qed.

Lemma print_file_info_report_witness :
  print_file_info demo_env (py "in/a.pdf") (py "out/a.docx") true []
  = (Ok tt,
     [MsgInfoHeader (py "in/a.pdf") (py "out/a.docx");
      MsgInfoPages (VInt 2); MsgInfoSize (VStr (py "2.5 MB"));
      MsgInfoTitle (VStr (py "Report"));
      MsgInfoContains [py "texto"; imagenes]]).
Proof.
  destruct (print_file_info_report demo_env (py "in/a.pdf") (py "out/a.docx") []
              (make_info (VInt 2) (VStr (py "2.5 MB")) (VStr (py "Report"))
                 (VStr (py "Desconocido")) (VBool true) (VBool true)) [])
    as (pages & size & title & t & i & Hp & Hs & Ht & Hx & Hi & Hrun).
  - vm_compute. reflexivity.
  - rewrite Hrun. vm_compute in Hp, Hs, Ht, Hx, Hi.
    injection Hp as <-. injection Hs as <-. injection Ht as <-.
    injection Hx as <-. injection Hi as <-. vm_compute. reflexivity.
Defined.

(** X19: [print_file_info] prints nothing when it is not verbose, whatever
    the path.  In verbose mode, for a PDF that cannot be read it reports 0
    pages, the title ['Error al leer'] and the warning; and for a path with a
    NUL character it prints the header and the read error, and then the
    [ValueError] of [get_pdf_info] leaves it. *)
Theorem print_file_info_failures (E : Env) (pdf_path output_path : str)
    (out : list helper_message) :
  print_file_info E pdf_path output_path false out = (Ok tt, out)
  /\ (forall e size,
        get_pdf_info_try E pdf_path = Raise (Exc e) ->
        get_file_size E (PStr pdf_path) = Ok size ->
        print_file_info E pdf_path output_path true out
        = (Ok tt,
           out ++ [MsgInfoHeader pdf_path output_path;
                   Printed (MsgPdfReadError e);
                   MsgInfoPages (VInt 0); MsgInfoSize (VStr size);
                   MsgInfoTitle (VStr (py "Error al leer"));
                   MsgInfoNoText]))
  /\ (has_nul pdf_path = true ->
      exists e,
        print_file_info E pdf_path output_path true out
        = (Raise (Exc ValueError),
           out ++ [MsgInfoHeader pdf_path output_path;
                   Printed (MsgPdfReadError e)])).
Proof.
  split; [reflexivity|]. split.
  - intros e size Htry Hsize.
    rewrite (print_file_info_lines E pdf_path output_path out
               [MsgPdfReadError e] (VInt 0) (VStr size)
               (VStr (py "Error al leer")) (VStr (py "Desconocido")) false false).
    + reflexivity.
    + rewrite (get_pdf_info_error E pdf_path [] e size Htry Hsize).
      rewrite error_info_make_info. reflexivity.
  - intros Hnul.
    assert (Hsize : get_file_size E (PStr pdf_path) = Raise (Exc ValueError))
      by (apply get_file_size_nul; exact Hnul).
    assert (Htry : exists e, get_pdf_info_try E pdf_path = Raise (Exc e)).
    { unfold get_pdf_info_try. destruct (fitz_open E pdf_path) as [doc|e]; cbn.
      - rewrite Hsize. cbn. eauto.
      - eauto. }
    destruct Htry as [e Htry]. exists e.
    unfold print_file_info, bindH, printH, callM, liftH, retH. cbn [negb].
    unfold get_pdf_info, try_except, lift, bindM, print, ret.
    rewrite Htry, Hsize. cbn. rewrite <- app_assoc. reflexivity.
Qed.

Lemma print_file_info_failures_witness :
  print_file_info demo_env (py "in/b.pdf") (py "out/b.docx") true []
  = (Ok tt,
     [MsgInfoHeader (py "in/b.pdf") (py "out/b.docx");
      Printed (MsgPdfReadError RuntimeError);
      MsgInfoPages (VInt 0); MsgInfoSize (VStr (py "Desconocido"));
      MsgInfoTitle (VStr (py "Error al leer")); MsgInfoNoText]).
Proof.
  destruct (print_file_info_failures demo_env (py "in/b.pdf") (py "out/b.docx") [])
    as (_ & H & _).
  apply (H RuntimeError (py "Desconocido")); reflexivity.
Defined.

(** X20: the two loops of [get_pdf_info] stop at the first page that
    answers: when the first page has text and an image, the pages after it
    are not read, so the result is the same even if reading them would
    raise. *)
Theorem get_pdf_info_first_page_suffices (E : Env) (pdf_path : str)
    (content : str * list N) (rest : list Page)
    (metadata : gmap string pyvalue) (size : str) (out : list message) :
  fitz_open E pdf_path
  = Returns {| doc_pages := plain_page content :: rest;
               doc_metadata := Returns metadata |} ->
  get_file_size E (PStr pdf_path) = Ok size ->
  has_content content = true ->
  has_image content = true ->
  get_pdf_info E pdf_path out
  = (Ok (make_info (VInt (1 + len rest)) (VStr size)
           (dict_get metadata "title" (VStr sin_titulo))
           (dict_get metadata "author" (VStr (py "Desconocido")))
           (VBool true) (VBool true)),
     out).
Proof.
  intros Hopen Hsize Htext Himage.
  unfold get_pdf_info, try_except, lift, get_pdf_info_try.
  rewrite Hopen, Hsize. cbn [call bindR]. rewrite first_pages_firstn.
  cbn [doc_pages doc_metadata call bindR firstn scan_text scan_images
       plain_page get_text get_images].
  unfold has_content in Htext. unfold has_image in Himage.
  destruct (str_strip (fst content)); [discriminate|].
  destruct (snd content); [discriminate|]. cbn [bindR].
  fold (make_info (VInt (len (plain_page content :: rest))) (VStr size)
          (dict_get metadata "title" (VStr sin_titulo))
          (dict_get metadata "author" (VStr (py "Desconocido")))
          (VBool false) (VBool false)).
  rewrite make_info_has_text, make_info_has_images.
  replace (len (plain_page content :: rest)) with (1 + len rest)
    by (unfold len; cbn [length]; lia).
  reflexivity.
Qed.

Lemma get_pdf_info_first_page_suffices_witness :
  fst (get_pdf_info
         (with_fitz_open demo_env (fun _ => Returns
            {| doc_pages := [plain_page (py "Hello", [7%N]);
                             {| get_text := Throws RuntimeError;
                                get_images := Throws RuntimeError |}];
               doc_metadata := Returns ∅ |}))
         (py "in/a.pdf") [])
  = Ok (make_info (VInt 2) (VStr (py "2.5 MB")) (VStr sin_titulo)
          (VStr (py "Desconocido")) (VBool true) (VBool true)).
Proof.
  rewrite (get_pdf_info_first_page_suffices _ (py "in/a.pdf") (py "Hello", [7%N])
             [{| get_text := Throws RuntimeError; get_images := Throws RuntimeError |}]
             ∅ (py "2.5 MB") []).
  - reflexivity.
  - reflexivity.
  - vm_compute. reflexivity.
  - reflexivity.
  - reflexivity.
Defined.

Lemma sanitize_filename_local_clean_witness :
  Forall (fun c => is_invalid c = false) (sanitize_filename_local (py "  a<b>?.pdf "))
  /\ isspace 97 = false.
Proof.
  destruct (sanitize_filename_local_clean (py "  a<b>?.pdf ")) as (H1 & _ & H3).
  split; [exact H1|]. apply (H3 97%N (py "_b__.pdf")). vm_compute. reflexivity.
Defined.

Lemma create_output_directory_result_witness :
  create_output_directory demo_env (fun _ => Throws OSError) (py "a.docx") []
  = (Ok true, []).
Proof.
  apply (create_output_directory_result demo_env (fun _ => Throws OSError)
           (py "a.docx") []).
  vm_compute. intuition discriminate.
Defined.
